(** * Entity association service of the metadata repository (MDR)

    A shallow embedding of
    [components/lif/mdr_services/entity_association_service.py].

    The service is a set of coroutines that read and write one SQLAlchemy
    session.  The session is modelled as a record of tables, a table as the
    list of its rows, and a coroutine as a function from the session to an
    outcome (a returned value or a raised exception) and the session it
    leaves behind.  A Python attribute that may hold [None] is an [option]. *)

From Stdlib Require Import ZArith List String Bool Lia.
Import ListNotations.
Local Open Scope string_scope.
Local Open Scope list_scope.
Local Open Scope Z_scope.

Set Implicit Arguments.

(** ** Exceptions and the session monad *)

(** The service raises [HTTPException(status_code=...)]; SQLAlchemy's
    [scalar_one_or_none] raises [MultipleResultsFound]. *)
Inductive exn : Type :=
| HTTPException (status_code : Z)
| MultipleResultsFound.

Definition NotFound : exn := HTTPException 404.
Definition Conflict : exn := HTTPException 400.

Inductive outcome (A : Type) : Type :=
| Return (a : A)
| Raise (e : exn).
Arguments Raise {A} e.

(** ** Rows *)

(** Modelled from the spec: the SQL model [EntityAssociation] of
    [lif.datatypes.mdr_sql_model].
    The columns are those the service reads and writes; every column a DTO
    can assign holds a Python value that may be [None]. *)
Record EntityAssociation : Type := mkEntityAssociation {
  Id : Z;
  ParentEntityId : option Z;
  ChildEntityId : option Z;
  Relationship : option string;
  Placement : option string;
  Notes : option string;
  CreationDate : option Z;
  ActivationDate : option Z;
  DeprecationDate : option Z;
  Contributor : option string;
  ContributorOrganization : option string;
  Extension : option bool;
  ExtendedByDataModelId : option Z;
  Deleted : bool
}.

(** Modelled from the spec: the SQL model [Entity]; only the columns the
    service uses. *)
Record Entity : Type := mkEntity {
  entity_Id : Z;
  entity_DataModelId : Z;
  entity_Extension : bool;
  entity_Deleted : bool
}.

(** Modelled from the spec: the enumeration [DataModelType]; the service
    names its members [OrgLIF] and [PartnerLIF], the other members stand for
    the types that are no extension. *)
Inductive DataModelType : Type := BaseLIF | OrgLIF | SourceSchema | PartnerLIF.

(** Modelled from the spec: the SQL model [DataModel]. *)
Record DataModel : Type := mkDataModel {
  dm_Id : Z;
  dm_Type : DataModelType;
  dm_Deleted : bool
}.

(** Modelled from the spec: the SQL model [ExtInclusionsFromBaseDM]. *)
Record ExtInclusionsFromBaseDM : Type := mkExtInclusion {
  ExtDataModelId : Z;
  ElementType : string;
  IncludedElementId : Z;
  incl_Deleted : bool
}.

(** The database behind an [AsyncSession]. *)
Record Session : Type := mkSession {
  associations : list EntityAssociation;
  entities : list Entity;
  data_models : list DataModel;
  inclusions : list ExtInclusionsFromBaseDM
}.

Definition M (A : Type) : Type := Session -> outcome A * Session.

Definition ret {A} (a : A) : M A := fun s => (Return a, s).
Definition raise {A} (e : exn) : M A := fun s => (Raise e, s).
Definition bind {A B} (m : M A) (k : A -> M B) : M B :=
  fun s => match m s with
           | (Return a, s') => k a s'
           | (Raise e, s') => (Raise e, s')
           end.
Definition gets {A} (f : Session -> A) : M A := fun s => (Return (f s), s).
Definition set_associations (rows : list EntityAssociation) : M unit :=
  fun s => (Return tt,
            mkSession rows (entities s) (data_models s) (inclusions s)).

Declare Scope session_scope.
Delimit Scope session_scope with session.
Notation "x <- m ;; k" := (bind m (fun x => k))
  (at level 61, m at next level, right associativity) : session_scope.
Notation "m ;;; k" := (bind m (fun _ => k))
  (at level 61, right associativity) : session_scope.
Local Open Scope session_scope.

(** ** Python values *)

(** Truth value of an [Optional[int]]: [None] and [0] are false. *)
Definition truthy_int (v : option Z) : bool :=
  match v with
  | Some z => negb (z =? 0)
  | None => false
  end.

(** Truth value of an [Optional[str]]: [None] and the empty string are false. *)
Definition truthy_str (v : option string) : bool :=
  match v with
  | Some s => negb (String.eqb s "")
  | None => false
  end.

(** ** SQL expressions *)

(** [column == value]: SQLAlchemy renders a comparison with [None] as
    [IS NULL]; a comparison of a NULL column with a value selects nothing. *)
Definition col_eq_int (col value : option Z) : bool :=
  match col, value with
  | None, None => true
  | Some a, Some b => a =? b
  | _, _ => false
  end.

Definition col_eq_str (col value : option string) : bool :=
  match col, value with
  | None, None => true
  | Some a, Some b => String.eqb a b
  | _, _ => false
  end.

(** [column.is_(None)] and [column == None]. *)
Definition is_null {A} (col : option A) : bool :=
  match col with
  | None => true
  | Some _ => false
  end.

(** [column.in_(values)]. *)
Definition col_in (col : option Z) (values : list Z) : bool :=
  match col with
  | Some a => existsb (Z.eqb a) values
  | None => false
  end.

(** [result.scalar_one_or_none()]. *)
Definition scalar_one_or_none {A} (rows : list A) : outcome (option A) :=
  match rows with
  | [] => Return None
  | [a] => Return (Some a)
  | _ :: _ :: _ => Raise MultipleResultsFound
  end.

(** [result.scalars().first()]. *)
Definition first {A} (rows : list A) : option A :=
  match rows with
  | [] => None
  | a :: _ => Some a
  end.

(** ** Primary-key access *)

(** [session.get(EntityAssociation, association_id)], for an id within the
    range of the key column; an id the driver cannot bind is outside this
    model. *)
Definition session_get (s : Session) (association_id : Z) : option EntityAssociation :=
  find (fun a => Id a =? association_id) (associations s).

(** Writing back the row that [session.get] returned: the row with the same
    key is replaced.  The list keeps it at its place, but the order of the
    list is no promise of the database: a query without [ORDER BY] may
    return the rows in any order, and what is proved of [first] below is
    stated so that it holds whatever row comes first. *)
Fixpoint update_row (a' : EntityAssociation) (rows : list EntityAssociation)
  : list EntityAssociation :=
  match rows with
  | [] => []
  | a :: rest => if Id a =? Id a' then a' :: rest else a :: update_row a' rest
  end.

(** [session.delete(row)]. *)
Fixpoint delete_row (association_id : Z) (rows : list EntityAssociation)
  : list EntityAssociation :=
  match rows with
  | [] => []
  | a :: rest => if Id a =? association_id then rest
                 else a :: delete_row association_id rest
  end.

(** The key the database gives a new row: one no row of the table has.  The
    database draws it from a sequence, which is not part of the session
    here; the proofs use only that the key is new. *)
Definition fresh_id (rows : list EntityAssociation) : Z :=
  fold_right (fun a m => Z.max (Id a) m) 0 rows + 1.

(** ** The directories the service calls *)

(** Modelled from the spec: [get_entity_by_id] of
    [lif.mdr_services.entity_service]; it returns the entity with this id
    and fails with [NotFound] when there is none or it is deleted. *)
Definition get_entity_by_id (id : Z) : M Entity :=
  fun s => match find (fun e => entity_Id e =? id) (entities s) with
           | Some e => if entity_Deleted e then (Raise NotFound, s)
                       else (Return e, s)
           | None => (Raise NotFound, s)
           end.

(** Modelled from the spec: [check_entity_by_id] of
    [lif.mdr_services.helper_service]; the validation helper with the same
    [NotFound] behaviour. *)
Definition check_entity_by_id (id : Z) : M Entity := get_entity_by_id id.

(** Modelled from the spec: [check_datamodel_by_id] of
    [lif.mdr_services.helper_service]; it returns the data model with this
    id and fails with [NotFound] when there is none or it is deleted. *)
Definition check_datamodel_by_id (id : Z) : M DataModel :=
  fun s => match find (fun d => dm_Id d =? id) (data_models s) with
           | Some d => if dm_Deleted d then (Raise NotFound, s)
                       else (Return d, s)
           | None => (Raise NotFound, s)
           end.

(** ** DTOs *)

(** Modelled from the spec: [CreateEntityAssociationDTO]; the fields are the
    ones [create_entity_association] reads. *)
Record CreateEntityAssociationDTO : Type := mkCreateDTO {
  c_ParentEntityId : Z;
  c_ChildEntityId : Z;
  c_Relationship : option string;
  c_Placement : option string;
  c_Notes : option string;
  c_CreationDate : option Z;
  c_ActivationDate : option Z;
  c_DeprecationDate : option Z;
  c_Contributor : option string;
  c_ContributorOrganization : option string;
  c_Extension : option bool;
  c_ExtendedByDataModelId : option Z
}.

(** A field of a partial update: left unset, or set to a value, [None]
    included ([dict(exclude_unset=True)] keeps exactly the set ones). *)
Inductive patch (A : Type) : Type :=
| unset
| set_to (v : option A).
Arguments unset {A}.

(** Reading the attribute of the DTO: an unset field reads as its default,
    [None]. *)
Definition attr {A} (f : patch A) : option A :=
  match f with
  | unset => None
  | set_to v => v
  end.

(** [setattr(row, key, value)] for the keys of [dict(exclude_unset=True)]. *)
Definition assign {A} (f : patch A) (old : option A) : option A :=
  match f with
  | unset => old
  | set_to v => v
  end.

(** Modelled from the spec: [UpdateEntityAssociationDTO]; every field is
    optional. *)
Record UpdateEntityAssociationDTO : Type := mkUpdateDTO {
  u_ParentEntityId : patch Z;
  u_ChildEntityId : patch Z;
  u_Relationship : patch string;
  u_Placement : patch string;
  u_Notes : patch string;
  u_CreationDate : patch Z;
  u_ActivationDate : patch Z;
  u_DeprecationDate : patch Z;
  u_Contributor : patch string;
  u_ContributorOrganization : patch string;
  u_Extension : patch bool;
  u_ExtendedByDataModelId : patch Z
}.

(** Modelled from the spec: [EntityAssociationDTO.from_orm]; the result DTO
    carries the columns of the row. *)
Definition EntityAssociationDTO : Type := EntityAssociation.
Definition from_orm (a : EntityAssociation) : EntityAssociationDTO := a.

Definition with_Extension (data : CreateEntityAssociationDTO) (v : option bool)
  : CreateEntityAssociationDTO :=
  mkCreateDTO (c_ParentEntityId data) (c_ChildEntityId data)
    (c_Relationship data) (c_Placement data) (c_Notes data)
    (c_CreationDate data) (c_ActivationDate data) (c_DeprecationDate data)
    (c_Contributor data) (c_ContributorOrganization data)
    v (c_ExtendedByDataModelId data).

(** The [for key, value in dto.dict(exclude_unset=True).items(): setattr(...)]
    loop of [update_entity_association]. *)
Definition apply_patch (a : EntityAssociation) (dto : UpdateEntityAssociationDTO)
  : EntityAssociation :=
  mkEntityAssociation (Id a)
    (assign (u_ParentEntityId dto) (ParentEntityId a))
    (assign (u_ChildEntityId dto) (ChildEntityId a))
    (assign (u_Relationship dto) (Relationship a))
    (assign (u_Placement dto) (Placement a))
    (assign (u_Notes dto) (Notes a))
    (assign (u_CreationDate dto) (CreationDate a))
    (assign (u_ActivationDate dto) (ActivationDate a))
    (assign (u_DeprecationDate dto) (DeprecationDate a))
    (assign (u_Contributor dto) (Contributor a))
    (assign (u_ContributorOrganization dto) (ContributorOrganization a))
    (assign (u_Extension dto) (Extension a))
    (assign (u_ExtendedByDataModelId dto) (ExtendedByDataModelId a))
    (Deleted a).

Definition with_Deleted (a : EntityAssociation) (v : bool) : EntityAssociation :=
  mkEntityAssociation (Id a) (ParentEntityId a) (ChildEntityId a)
    (Relationship a) (Placement a) (Notes a) (CreationDate a)
    (ActivationDate a) (DeprecationDate a) (Contributor a)
    (ContributorOrganization a) (Extension a) (ExtendedByDataModelId a) v.

(** ** The service *)

(** The [where] clause shared by [check_existing_association] and
    [retrieve_all_entity_associations]. *)
Definition pair_scope_clause (parent_entity_id child_entity_id : Z)
    (extended_by_data_model_id : option Z) (a : EntityAssociation) : bool :=
  col_eq_int (ParentEntityId a) (Some parent_entity_id)
  && col_eq_int (ChildEntityId a) (Some child_entity_id)
  && negb (Deleted a)
  && (is_null (ExtendedByDataModelId a)
      || col_eq_int (ExtendedByDataModelId a) extended_by_data_model_id).

Definition check_existing_association (parent_entity_id child_entity_id : Z)
    (extended_by_data_model_id : option Z) : M bool :=
  fun s =>
    let result :=
      filter (pair_scope_clause parent_entity_id child_entity_id
                extended_by_data_model_id) (associations s) in
    match scalar_one_or_none result with
    | Return (Some _) => (Return true, s)
    | Return None => (Return false, s)
    | Raise e => (Raise e, s)
    end.

Definition retrieve_all_entity_associations (parent_entity_id child_entity_id : Z)
    (extended_by_data_model_id : option Z) : M (list EntityAssociation) :=
  rows <- gets associations ;;
  let associations :=
    filter (pair_scope_clause parent_entity_id child_entity_id
              extended_by_data_model_id) rows in
  match associations with
  | [] => raise NotFound
  | _ :: _ => ret associations
  end.

Definition create_entity_association (data : CreateEntityAssociationDTO)
  : M EntityAssociationDTO :=
  parent_entity <- get_entity_by_id (c_ParentEntityId data) ;;
  child_entity <- get_entity_by_id (c_ChildEntityId data) ;;
  let data :=
    if entity_Extension parent_entity || entity_Extension child_entity
    then with_Extension data (Some true)
    else with_Extension data (Some false) in
  exists_ <- check_existing_association (c_ParentEntityId data)
               (c_ChildEntityId data) (c_ExtendedByDataModelId data) ;;
  if exists_ then raise Conflict
  else
    rows <- gets associations ;;
    let entity_association :=
      mkEntityAssociation (fresh_id rows)
        (Some (c_ParentEntityId data)) (Some (c_ChildEntityId data))
        (c_Relationship data) (c_Placement data) (c_Notes data)
        (c_CreationDate data) (c_ActivationDate data)
        (c_DeprecationDate data) (c_Contributor data)
        (c_ContributorOrganization data) (c_Extension data)
        (c_ExtendedByDataModelId data) false in
    set_associations (rows ++ [entity_association]) ;;;
    ret (from_orm entity_association).

Definition get_entity_association_by_id (association_id : Z) : M EntityAssociation :=
  fun s =>
    match session_get s association_id with
    | None => (Raise NotFound, s)
    | Some association =>
        if Deleted association then (Raise NotFound, s)
        else (Return association, s)
    end.

Definition parent_child_relationship_clause
    (parent_entity_id child_entity_id : option Z) (relationship : option string)
    (extended_by_data_model_id : option Z) (a : EntityAssociation) : bool :=
  col_eq_int (ParentEntityId a) parent_entity_id
  && col_eq_int (ChildEntityId a) child_entity_id
  && col_eq_str (Relationship a) relationship
  && (is_null (ExtendedByDataModelId a)
      || col_eq_int (ExtendedByDataModelId a) extended_by_data_model_id)
  && negb (Deleted a).

Definition get_entity_association_by_parent_child_relationship
    (parent_entity_id child_entity_id : option Z) (relationship : option string)
    (extended_by_data_model_id : option Z) : M (option EntityAssociation) :=
  rows <- gets associations ;;
  ret (first (filter (parent_child_relationship_clause parent_entity_id
                        child_entity_id relationship
                        extended_by_data_model_id) rows)).

(** [if v: check_entity_by_id(session, v)]. *)
Definition check_if_given (v : option Z) : M unit :=
  match v with
  | Some z => if z =? 0 then ret tt else check_entity_by_id z ;;; ret tt
  | None => ret tt
  end.

(** The effective tuple of an update: [dto.X if dto.X else
    entity_association.X]. *)
Definition updated_parent_entity_id (dto : UpdateEntityAssociationDTO)
    (entity_association : EntityAssociation) : option Z :=
  if truthy_int (attr (u_ParentEntityId dto))
  then attr (u_ParentEntityId dto)
  else ParentEntityId entity_association.

Definition updated_child_entity_id (dto : UpdateEntityAssociationDTO)
    (entity_association : EntityAssociation) : option Z :=
  if truthy_int (attr (u_ChildEntityId dto))
  then attr (u_ChildEntityId dto)
  else ChildEntityId entity_association.

Definition updated_relationship (dto : UpdateEntityAssociationDTO)
    (entity_association : EntityAssociation) : option string :=
  if truthy_str (attr (u_Relationship dto))
  then attr (u_Relationship dto)
  else Relationship entity_association.

Definition updated_extended_by_data_model_id (dto : UpdateEntityAssociationDTO)
    (entity_association : EntityAssociation) : option Z :=
  if truthy_int (attr (u_ExtendedByDataModelId dto))
  then attr (u_ExtendedByDataModelId dto)
  else ExtendedByDataModelId entity_association.

(** [if dto.ParentEntityId or dto.ChildEntityId]. *)
Definition endpoint_given (dto : UpdateEntityAssociationDTO) : bool :=
  truthy_int (attr (u_ParentEntityId dto))
  || truthy_int (attr (u_ChildEntityId dto)).

Definition update_entity_association (association_id : Z)
    (dto : UpdateEntityAssociationDTO) : M EntityAssociationDTO :=
  entity_association <- get_entity_association_by_id association_id ;;
  check_if_given (attr (u_ParentEntityId dto)) ;;;
  check_if_given (attr (u_ChildEntityId dto)) ;;;
  (if endpoint_given dto
   then
     existing_association <-
       get_entity_association_by_parent_child_relationship
         (updated_parent_entity_id dto entity_association)
         (updated_child_entity_id dto entity_association)
         (updated_relationship dto entity_association)
         (updated_extended_by_data_model_id dto entity_association) ;;
     match existing_association with
     | Some existing =>
         if negb (Id existing =? association_id) then raise Conflict
         else ret tt
     | None => ret tt
     end
   else ret tt) ;;;
  let entity_association := apply_patch entity_association dto in
  rows <- gets associations ;;
  set_associations (update_row entity_association rows) ;;;
  ret (from_orm entity_association).

(** The dictionary [{"message": f"Entity association with ID {id} deleted
    successfully"}]. *)
Inductive message : Type :=
| deleted_successfully (association_id : Z).

Definition delete_entity_association (association_id : Z) : M message :=
  entity_association <- get_entity_association_by_id association_id ;;
  rows <- gets associations ;;
  set_associations (delete_row (Id entity_association) rows) ;;;
  ret (deleted_successfully association_id).

Definition soft_delete_entity_association (association_id : Z) : M message :=
  entity_association <- get_entity_association_by_id association_id ;;
  let entity_association := with_Deleted entity_association true in
  rows <- gets associations ;;
  set_associations (update_row entity_association rows) ;;;
  ret (deleted_successfully association_id).

Definition is_extension_type (t : DataModelType) : bool :=
  match t with
  | OrgLIF | PartnerLIF => true
  | _ => false
  end.

(** [select(ExtInclusionsFromBaseDM.IncludedElementId).where(...)]. *)
Definition included_entity_ids (data_model_id : Z)
    (rows : list ExtInclusionsFromBaseDM) : list Z :=
  map IncludedElementId
    (filter (fun i => (ExtDataModelId i =? data_model_id)
                      && String.eqb (ElementType i) "Entity"
                      && negb (incl_Deleted i)) rows).

Definition extension_model_clause (data_model_id : Z) (ids : list Z)
    (a : EntityAssociation) : bool :=
  col_in (ParentEntityId a) ids
  && col_in (ChildEntityId a) ids
  && negb (Deleted a)
  && (col_eq_int (ExtendedByDataModelId a) (Some data_model_id)
      || is_null (ExtendedByDataModelId a)).

(** [select(EntityAssociation).join(E, E.Id == key(a)).where(...)]: one
    result row for every entity of the data model the key joins with. *)
Definition joined_with_model (key : EntityAssociation -> option Z)
    (data_model_id : Z) (es : list Entity) (rows : list EntityAssociation)
  : list EntityAssociation :=
  flat_map
    (fun a =>
       map (fun _ => a)
         (filter (fun e => col_eq_int (key a) (Some (entity_Id e))
                           && (entity_DataModelId e =? data_model_id)
                           && negb (Deleted a)
                           && is_null (ExtendedByDataModelId a)) es))
    rows.

Definition EntityAssociation_eq_dec (a b : EntityAssociation) : {a = b} + {a <> b}.
Proof.
  decide equality;
    try apply bool_dec; try apply Z.eq_dec;
    decide equality;
    try apply bool_dec; try apply Z.eq_dec; apply string_dec.
Defined.

(** [parent_query.union(child_query)]: equal rows appear once. *)
Definition union (l1 l2 : list EntityAssociation) : list EntityAssociation :=
  nodup EntityAssociation_eq_dec (l1 ++ l2).

Definition get_entity_associations_by_data_model_id (data_model_id : Z)
  : M (list EntityAssociationDTO) :=
  data_model <- check_datamodel_by_id data_model_id ;;
  rows <- gets associations ;;
  entity_associations <-
    (if is_extension_type (dm_Type data_model)
     then
       incl <- gets inclusions ;;
       let included_entity_ids := included_entity_ids data_model_id incl in
       ret (filter (extension_model_clause data_model_id included_entity_ids) rows)
     else
       es <- gets entities ;;
       let parent_query := joined_with_model ParentEntityId data_model_id es rows in
       let child_query := joined_with_model ChildEntityId data_model_id es rows in
       ret (union parent_query child_query)) ;;
  ret (map from_orm entity_associations).

Definition get_entity_associations_by_parent_entity_id (parent_entity_id : Z)
    (including_extended_by_data_model_id : option Z)
  : M (list EntityAssociationDTO) :=
  parent_entity <- check_entity_by_id parent_entity_id ;;
  (* [if not parent_entity]: the entity returned is an object, hence true *)
  rows <- gets associations ;;
  let entity_associations :=
    if truthy_int including_extended_by_data_model_id
    then
      filter (fun a =>
                col_eq_int (ParentEntityId a) (Some parent_entity_id)
                && negb (Deleted a)
                && (col_eq_int (ExtendedByDataModelId a)
                      including_extended_by_data_model_id
                    || is_null (ExtendedByDataModelId a))) rows
    else
      filter (fun a =>
                col_eq_int (ParentEntityId a) (Some parent_entity_id)
                && negb (Deleted a)
                && is_null (ExtendedByDataModelId a)) rows in
  ret (map from_orm entity_associations).

(** ** Example data *)

Definition entity_10 : Entity := mkEntity 10 1 false false.
Definition entity_20 : Entity := mkEntity 20 99 true false.
Definition entity_30 : Entity := mkEntity 30 1 false false.

Definition model_1 : DataModel := mkDataModel 1 BaseLIF false.
Definition model_99 : DataModel := mkDataModel 99 OrgLIF false.

Definition empty_session : Session :=
  mkSession [] [entity_10; entity_20; entity_30] [model_1; model_99]
    [mkExtInclusion 99 "Entity" 10 false; mkExtInclusion 99 "Entity" 20 false].

Definition new_association (parent child : Z) (relationship : string)
    (scope : option Z) : CreateEntityAssociationDTO :=
  mkCreateDTO parent child (Some relationship) None None None None None
    None None None scope.

Definition empty_patch : UpdateEntityAssociationDTO :=
  mkUpdateDTO unset unset unset unset unset unset unset unset unset unset
    unset unset.

(** Running [m] and keeping the session. *)
Definition exec {A} (m : M A) (s : Session) : Session := snd (m s).
Definition eval {A} (m : M A) (s : Session) : outcome A := fst (m s).

(** Two associations (10, 20, "rel", null) and (10, 20, "rel2", null), with
    ids 1 and 2: create (10, 20, "rel"), create (30, 20, "rel2"), then move
    the parent of the second to 10. *)
Definition parent_patch (parent : Z) : UpdateEntityAssociationDTO :=
  mkUpdateDTO (set_to (Some parent)) unset unset unset unset unset unset unset
    unset unset unset unset.

Definition relationship_patch (relationship : string)
  : UpdateEntityAssociationDTO :=
  mkUpdateDTO unset unset (set_to (Some relationship)) unset unset unset unset
    unset unset unset unset unset.

Definition placement_patch (placement : string) : UpdateEntityAssociationDTO :=
  mkUpdateDTO unset unset unset (set_to (Some placement)) unset unset unset
    unset unset unset unset unset.

Definition two_associations : Session :=
  exec (create_entity_association (new_association 30 20 "rel2" None))
    (exec (create_entity_association (new_association 10 20 "rel" None))
       empty_session).

Definition two_relationships : Session :=
  exec (update_entity_association 2 (parent_patch 10)) two_associations.

(** Associations 10 -> 20 (id 1) and 10 -> 30 (id 2), both in base scope;
    model 99 includes the entities 10 and 20 only. *)
Definition scenario : Session :=
  exec (create_entity_association (new_association 10 30 "references" None))
    (exec (create_entity_association (new_association 10 20 "contains" None))
       empty_session).

(** The row [create_entity_association] stores and the session it leaves. *)
Definition created_row (data : CreateEntityAssociationDTO)
    (parent_entity child_entity : Entity) (rows : list EntityAssociation)
  : EntityAssociation :=
  mkEntityAssociation (fresh_id rows)
    (Some (c_ParentEntityId data)) (Some (c_ChildEntityId data))
    (c_Relationship data) (c_Placement data) (c_Notes data)
    (c_CreationDate data) (c_ActivationDate data) (c_DeprecationDate data)
    (c_Contributor data) (c_ContributorOrganization data)
    (Some (entity_Extension parent_entity || entity_Extension child_entity))
    (c_ExtendedByDataModelId data) false.

Definition with_associations (rows : list EntityAssociation) (s : Session)
  : Session :=
  mkSession rows (entities s) (data_models s) (inclusions s).

(** The session an update leaves when it goes through. *)
Definition updated_session (ea : EntityAssociation)
    (dto : UpdateEntityAssociationDTO) (s : Session) : Session :=
  with_associations (update_row (apply_patch ea dto) (associations s)) s.

(** The primary key identifies a row. *)
Definition primary_key (s : Session) : Prop :=
  NoDup (map Id (associations s)).

(** The rows the duplicate query of an update selects. *)
Definition update_matching (dto : UpdateEntityAssociationDTO)
    (entity_association : EntityAssociation) (rows : list EntityAssociation)
  : list EntityAssociation :=
  filter (parent_child_relationship_clause
            (updated_parent_entity_id dto entity_association)
            (updated_child_entity_id dto entity_association)
            (updated_relationship dto entity_association)
            (updated_extended_by_data_model_id dto entity_association)) rows.

(** A column after a partial update: the old value when the field is unset,
    the value of the patch when it is set. *)
Definition patched {A} (f : patch A) (old new : option A) : Prop :=
  (f = unset -> new = old) /\ (forall v, f = set_to v -> new = v).

(** An extension model includes an entity: a live inclusion row of element
    type "Entity" names it. *)
Definition included (s : Session) (data_model_id entity_id : Z) : Prop :=
  exists i, In i (inclusions s)
            /\ ExtDataModelId i = data_model_id
            /\ ElementType i = "Entity"
            /\ incl_Deleted i = false
            /\ IncludedElementId i = entity_id.

(** At most one live association for a parent, a child and a scope. *)
Definition scoped_unique (s : Session) : Prop :=
  forall a b,
    In a (associations s) -> In b (associations s) ->
    Deleted a = false -> Deleted b = false ->
    ParentEntityId a = ParentEntityId b ->
    ChildEntityId a = ChildEntityId b ->
    ExtendedByDataModelId a = ExtendedByDataModelId b ->
    Id a = Id b.

(** The rows the query of [get_entity_associations_by_parent_entity_id]
    selects. *)
Definition parent_rows (parent_entity_id : Z)
    (including_extended_by_data_model_id : option Z)
    (rows : list EntityAssociation) : list EntityAssociation :=
  if truthy_int including_extended_by_data_model_id
  then
    filter (fun a =>
              col_eq_int (ParentEntityId a) (Some parent_entity_id)
              && negb (Deleted a)
              && (col_eq_int (ExtendedByDataModelId a)
                    including_extended_by_data_model_id
                  || is_null (ExtendedByDataModelId a))) rows
  else
    filter (fun a =>
              col_eq_int (ParentEntityId a) (Some parent_entity_id)
              && negb (Deleted a)
              && is_null (ExtendedByDataModelId a)) rows.

(** ** Resolving an entity by name *)

Section Names.

(** Modelled from the spec: the columns [Name] and [DataModelVersion] of
    [DataModel] and [Name] of [Entity]; the records above carry the columns
    the association queries use, these three are read off the row. *)
Variable dm_Name : DataModel -> string.
Variable dm_DataModelVersion : DataModel -> option string.
Variable entity_Name : Entity -> string.

(** The [where] clause of the data model query, with the version filter
    added [if data_model_version]. *)
Definition data_model_clause (data_model_name : string)
    (data_model_version : option string) (d : DataModel) : bool :=
  if truthy_str data_model_version
  then String.eqb (dm_Name d) data_model_name && negb (dm_Deleted d)
       && col_eq_str (dm_DataModelVersion d) data_model_version
  else String.eqb (dm_Name d) data_model_name && negb (dm_Deleted d).

Definition entity_clause (entity_name : string) (data_model_id : Z)
    (e : Entity) : bool :=
  String.eqb (entity_Name e) entity_name
  && (entity_DataModelId e =? data_model_id)
  && negb (entity_Deleted e).

Definition resolve_entity_id (entity_name data_model_name : string)
    (data_model_version : option string) : M Z :=
  fun s =>
    let dm_result :=
      map dm_Id (filter (data_model_clause data_model_name data_model_version)
                   (data_models s)) in
    match scalar_one_or_none dm_result with
    | Raise e => (Raise e, s)
    | Return data_model_id =>
        match data_model_id with
        | None => (Raise NotFound, s)
        | Some data_model_id =>
            if data_model_id =? 0 then (Raise NotFound, s)
            else
              let entity_result :=
                map entity_Id (filter (entity_clause entity_name data_model_id)
                                 (entities s)) in
              match scalar_one_or_none entity_result with
              | Raise e => (Raise e, s)
              | Return None => (Raise NotFound, s)
              | Return (Some entity_id) =>
                  if entity_id =? 0 then (Raise NotFound, s)
                  else (Return entity_id, s)
              end
        end
    end.

End Names.

(** Example names: the entities 10, 20, 30 are "Person", "Course",
    "Person"; the models 1 and 99 are "Base" 1.0 and "Org" 2.0. *)
Definition example_entity_Name (e : Entity) : string :=
  if entity_Id e =? 20 then "Course" else "Person".

Definition example_dm_Name (d : DataModel) : string :=
  if dm_Id d =? 1 then "Base" else "Org".

Definition example_dm_DataModelVersion (d : DataModel) : option string :=
  if dm_Id d =? 1 then Some "1.0" else Some "2.0".

Definition two_versions : Session :=
  mkSession [] [entity_10; entity_20; entity_30]
    [mkDataModel 99 OrgLIF false; mkDataModel 100 OrgLIF false] [].

(** ** The unicode repair script

    [scripts/fix_remaining_unicode.py].  A Python [str] is the list of its
    code points. *)

Definition str : Type := list Z.

Fixpoint str_eqb (a b : str) : bool :=
  match a, b with
  | [], [] => true
  | x :: a', y :: b' => (x =? y) && str_eqb a' b'
  | _, _ => false
  end.

(** [s.startswith(p)]. *)
Fixpoint startswith (p s : str) : bool :=
  match p, s with
  | [], _ => true
  | x :: p', y :: s' => (x =? y) && startswith p' s'
  | _ :: _, [] => false
  end.

(** [old in s]: [old] starts at some position of [s]. *)
Fixpoint occurs (old s : str) : bool :=
  match s with
  | [] => startswith old []
  | _ :: t => startswith old s || occurs old t
  end.

(** The left-to-right scan behind [str.count] and [str.replace] for a
    pattern that is not empty: [skip] is the number of characters still to
    pass over after a match. *)
Fixpoint count_from (old : str) (skip : nat) (s : str) : Z :=
  match s with
  | [] => 0
  | _ :: t =>
      match skip with
      | S k => count_from old k t
      | O => if startswith old s
             then 1 + count_from old (List.length old - 1) t
             else count_from old 0 t
      end
  end.

Fixpoint replace_from (old new : str) (skip : nat) (s : str) : str :=
  match s with
  | [] => []
  | c :: t =>
      match skip with
      | S k => replace_from old new k t
      | O => if startswith old s
             then new ++ replace_from old new (List.length old - 1) t
             else c :: replace_from old new 0 t
      end
  end.

(** [s.count(old)]: the number of non-overlapping occurrences; the empty
    pattern occurs between all characters and at both ends. *)
Definition str_count (old s : str) : Z :=
  match old with
  | [] => Z.of_nat (List.length s) + 1
  | _ :: _ => count_from old 0 s
  end.

(** [s.replace(old, new)]. *)
Definition str_replace (old new s : str) : str :=
  match old with
  | [] => new ++ flat_map (fun c => c :: new) s
  | _ :: _ => replace_from old new 0 s
  end.

(** A [dict] keeps its keys in the order they were first set; setting a key
    again replaces its value where it stands. *)
Fixpoint dict_set (k v : str) (d : list (str * str)) : list (str * str) :=
  match d with
  | [] => [(k, v)]
  | (k', v') :: rest =>
      if str_eqb k k' then (k', v) :: rest else (k', v') :: dict_set k v rest
  end.

Definition dict_literal (items : list (str * str)) : list (str * str) :=
  fold_left (fun d kv => dict_set (fst kv) (snd kv) d) items [].

(** The table of the script, entry by entry as it is written; the first two
    keys are the same three characters. *)
Definition REPLACEMENTS : list (str * str) :=
  dict_literal
    [ ([226; 8364; 34], [45]);
      ([226; 8364; 34], [45]);
      ([226; 8364; 8482], [39]);
      ([226; 8364; 732], [39]);
      ([226; 8364; 339], [34]);
      ([226; 8364], [34]);
      ([226; 8364; 175], [32]);
      ([226; 8364; 162], [45]);
      ([226; 8364; 353; 195; 8222; 195; 180], [39]) ].

(** One turn of the loop of [fix_file] on [(content, total_fixes)]. *)
Definition fix_step (state : str * Z) (item : str * str) : str * Z :=
  let (content, total_fixes) := state in
  let (corrupted, replacement) := item in
  let count := str_count corrupted content in
  if 0 <? count
  then (str_replace corrupted replacement content, total_fixes + count)
  else (content, total_fixes).

(** [fix_file] on the text of the file: the text the file holds afterwards
    and the count returned.  The file is written only [if total_fixes > 0];
    the messages printed are left out. *)
Definition fix_file (original : str) : str * Z :=
  let (content, total_fixes) := fold_left fix_step REPLACEMENTS (original, 0) in
  if 0 <? total_fixes then (content, total_fixes)
  else (original, total_fixes).

(** [main] on the JSON files of the sample data directory, as pairs of a
    name and a text: the files afterwards, [total_files_fixed] and
    [total_replacements]. *)
Definition main_step (state : list (string * str) * Z * Z)
    (json_file : string * str) : list (string * str) * Z * Z :=
  let '(files, total_files_fixed, total_replacements) := state in
  let (name, text) := json_file in
  let (text', fixes) := fix_file text in
  if 0 <? fixes
  then (files ++ [(name, text')], total_files_fixed + 1,
        total_replacements + fixes)
  else (files ++ [(name, text')], total_files_fixed, total_replacements).

Definition main (sample_data : list (string * str))
  : list (string * str) * Z * Z :=
  fold_left main_step sample_data ([], 0, 0).

(** The two characters every key of the table starts with. *)
Definition corrupted_prefix : str := [226; 8364].

(** What [main] amounts to, file by file. *)
Definition fixed_files (sample_data : list (string * str))
  : list (string * str) :=
  map (fun json_file => (fst json_file, fst (fix_file (snd json_file))))
    sample_data.

Definition files_with_fixes (sample_data : list (string * str)) : Z :=
  Z.of_nat (List.length
              (filter (fun json_file => 0 <? snd (fix_file (snd json_file)))
                 sample_data)).

Definition all_fixes (sample_data : list (string * str)) : Z :=
  fold_right (fun json_file n => snd (fix_file (snd json_file)) + n) 0
    sample_data.

(** A field of the tuple an update checks: the value of the patch when the
    patch sets a true value, the stored value when the field is unset or
    set to [None], 0 or the empty string. *)
Definition checked_field {A} (truthy : option A -> bool) (f : patch A)
    (old checked : option A) : Prop :=
  (f = unset -> checked = old)
  /\ (forall v, f = set_to v -> truthy v = true -> checked = v)
  /\ (forall v, f = set_to v -> truthy v = false -> checked = old).

(** A base-scope and a scope-9 association of the same pair and
    relationship, and the patch that moves the first into scope 9. *)
Definition base_row : EntityAssociation :=
  mkEntityAssociation 1 (Some 10) (Some 20) (Some "rel") None None None None
    None None None (Some true) None false.

Definition scoped_row : EntityAssociation :=
  mkEntityAssociation 2 (Some 10) (Some 20) (Some "rel") None None None None
    None None None (Some true) (Some 9) false.

Definition scope_patch : UpdateEntityAssociationDTO :=
  mkUpdateDTO (set_to (Some 10)) unset unset unset unset unset unset unset
    unset unset unset (set_to (Some 9)).

(** ** The session monad *)

Unset Implicit Arguments.

Section Reads.

Variable s : Session.

Lemma get_entity_by_id_cases id :
  (exists e, get_entity_by_id id s = (Return e, s)
             /\ entity_Id e = id /\ entity_Deleted e = false
             /\ In e (entities s))
  \/ get_entity_by_id id s = (Raise NotFound, s).
Proof.
  unfold get_entity_by_id.
  destruct (find _ (entities s)) as [e|] eqn:F; [|now right].
  destruct (entity_Deleted e) eqn:D; [now right|].
  left. exists e. apply find_some in F. destruct F as [I E].
  apply Z.eqb_eq in E. auto.
Qed.

Lemma get_entity_by_id_entities id s' :
  entities s' = entities s ->
  fst (get_entity_by_id id s') = fst (get_entity_by_id id s).
Proof.
  intros E. unfold get_entity_by_id. rewrite E.
  destruct (find _ (entities s)) as [e|]; [|reflexivity].
  now destruct (entity_Deleted e).
Qed.

Lemma get_entity_by_id_session id : snd (get_entity_by_id id s) = s.
Proof.
  unfold get_entity_by_id.
  destruct (find _ (entities s)) as [e|]; [|reflexivity].
  now destruct (entity_Deleted e).
Qed.

Lemma get_entity_association_by_id_Return id a :
  get_entity_association_by_id id s = (Return a, s)
  <-> session_get s id = Some a /\ Deleted a = false.
Proof.
  unfold get_entity_association_by_id.
  destruct (session_get s id) as [b|].
  - destruct (Deleted b) eqn:D; split.
    + discriminate.
    + intros [E D']. injection E as ->. congruence.
    + intros E. injection E as ->. auto.
    + intros [E _]. now injection E as ->.
  - split; [discriminate | intros [E _]; discriminate].
Qed.

Lemma get_entity_association_by_id_cases id :
  (exists a, get_entity_association_by_id id s = (Return a, s)
             /\ session_get s id = Some a /\ Deleted a = false)
  \/ (get_entity_association_by_id id s = (Raise NotFound, s)
      /\ forall a, session_get s id = Some a -> Deleted a = true).
Proof.
  unfold get_entity_association_by_id.
  destruct (session_get s id) as [b|].
  - destruct (Deleted b) eqn:D.
    + right. split; [reflexivity|]. intros a E. now injection E as <-.
    + left. exists b. auto.
  - right. split; [reflexivity | discriminate].
Qed.

End Reads.

Lemma get_entity_by_id_with_associations id rows s :
  get_entity_by_id id (with_associations rows s)
  = (fst (get_entity_by_id id s), with_associations rows s).
Proof.
  unfold get_entity_by_id, with_associations. simpl.
  destruct (find _ (entities s)) as [e|]; [|reflexivity].
  now destruct (entity_Deleted e).
Qed.

(** ** Creating an association *)

(** What [create_entity_association] does once both entities resolve: the
    outcome is decided by the number of rows the duplicate query selects. *)
Lemma create_entity_association_resolved data parent_entity child_entity s :
  get_entity_by_id (c_ParentEntityId data) s = (Return parent_entity, s) ->
  get_entity_by_id (c_ChildEntityId data) s = (Return child_entity, s) ->
  create_entity_association data s =
  match filter (pair_scope_clause (c_ParentEntityId data) (c_ChildEntityId data)
                  (c_ExtendedByDataModelId data)) (associations s) with
  | [] =>
      let row := created_row data parent_entity child_entity (associations s) in
      (Return row, with_associations (associations s ++ [row]) s)
  | [_] => (Raise Conflict, s)
  | _ :: _ :: _ => (Raise MultipleResultsFound, s)
  end.
Proof.
  intros HP HC.
  unfold create_entity_association, bind. rewrite HP, HC.
  unfold check_existing_association, created_row, with_associations.
  destruct (entity_Extension parent_entity || entity_Extension child_entity);
    simpl;
    destruct (filter _ (associations s)) as [|a [|b l]]; reflexivity.
Qed.

Lemma create_entity_association_unresolved data s :
  get_entity_by_id (c_ParentEntityId data) s = (Raise NotFound, s)
  \/ get_entity_by_id (c_ChildEntityId data) s = (Raise NotFound, s) ->
  create_entity_association data s = (Raise NotFound, s).
Proof.
  intros H. unfold create_entity_association, bind.
  destruct (get_entity_by_id_cases s (c_ParentEntityId data))
    as [(p & HP & _)|HP]; rewrite HP; [|reflexivity].
  destruct H as [H|H]; [congruence|]. now rewrite H.
Qed.

(** A successful create: both entities resolved, the duplicate query
    selected nothing, and the stored row is [created_row]. *)
Lemma create_entity_association_Return data s row s' :
  create_entity_association data s = (Return row, s') ->
  exists parent_entity child_entity,
    get_entity_by_id (c_ParentEntityId data) s = (Return parent_entity, s)
    /\ get_entity_by_id (c_ChildEntityId data) s = (Return child_entity, s)
    /\ filter (pair_scope_clause (c_ParentEntityId data) (c_ChildEntityId data)
                 (c_ExtendedByDataModelId data)) (associations s) = []
    /\ row = created_row data parent_entity child_entity (associations s)
    /\ s' = with_associations (associations s ++ [row]) s.
Proof.
  intros H.
  destruct (get_entity_by_id_cases s (c_ParentEntityId data))
    as [(p & HP & _)|HP];
    [|rewrite create_entity_association_unresolved in H by auto; discriminate].
  destruct (get_entity_by_id_cases s (c_ChildEntityId data))
    as [(c & HC & _)|HC];
    [|rewrite create_entity_association_unresolved in H by auto; discriminate].
  rewrite (create_entity_association_resolved _ _ _ _ HP HC) in H.
  exists p, c.
  destruct (filter _ (associations s)) as [|a [|b l]]; try discriminate.
  simpl in H. injection H as <- <-. auto.
Qed.

Lemma resolved_with_associations id e rows s :
  get_entity_by_id id s = (Return e, s) ->
  get_entity_by_id id (with_associations rows s)
  = (Return e, with_associations rows s).
Proof.
  intros H. rewrite get_entity_by_id_with_associations. now rewrite H.
Qed.

Lemma col_eq_int_refl v : col_eq_int v v = true.
Proof. destruct v; simpl; [apply Z.eqb_refl | reflexivity]. Qed.

Lemma col_eq_int_true a b : col_eq_int a b = true <-> a = b.
Proof.
  destruct a, b; simpl; split; try discriminate; try reflexivity.
  - intros H. apply Z.eqb_eq in H. now subst.
  - intros H. injection H as ->. apply Z.eqb_refl.
Qed.

Lemma col_eq_str_true a b : col_eq_str a b = true <-> a = b.
Proof.
  destruct a, b; simpl; split; try discriminate; try reflexivity.
  - intros H. apply String.eqb_eq in H. now subst.
  - intros H. injection H as ->. apply String.eqb_refl.
Qed.

Lemma is_null_true {A} (v : option A) : is_null v = true <-> v = None.
Proof. destruct v; simpl; split; congruence. Qed.

Lemma filter_nil_iff {A} (f : A -> bool) l :
  filter f l = [] <-> forall a, In a l -> f a = false.
Proof.
  induction l as [|b l IH]; simpl; [tauto|].
  destruct (f b) eqn:E; split.
  - discriminate.
  - intros H. specialize (H b (or_introl eq_refl)). congruence.
  - intros H a [<-|I]; [assumption|]. now apply IH.
  - intros H. apply IH. auto.
Qed.

(** The duplicate query, read as a proposition. *)
Lemma pair_scope_clause_true p c scope a :
  pair_scope_clause p c scope a = true
  <-> ParentEntityId a = Some p /\ ChildEntityId a = Some c
      /\ Deleted a = false
      /\ (ExtendedByDataModelId a = None \/ ExtendedByDataModelId a = scope).
Proof.
  unfold pair_scope_clause.
  rewrite !andb_true_iff, orb_true_iff, negb_true_iff,
    !col_eq_int_true, is_null_true.
  tauto.
Qed.

(** The created row against a later duplicate query for the same pair. *)
Lemma pair_scope_clause_created_row data parent_entity child_entity rows scope :
  pair_scope_clause (c_ParentEntityId data) (c_ChildEntityId data) scope
    (created_row data parent_entity child_entity rows)
  = is_null (c_ExtendedByDataModelId data)
    || col_eq_int (c_ExtendedByDataModelId data) scope.
Proof.
  unfold pair_scope_clause, created_row. simpl.
  now rewrite !Z.eqb_refl.
Qed.

Lemma filter_null_scope p c scope rows :
  filter (pair_scope_clause p c scope) rows = [] ->
  filter (pair_scope_clause p c None) rows = [].
Proof.
  induction rows as [|a rows IH]; [reflexivity|]. simpl.
  destruct (pair_scope_clause p c scope a) eqn:E; [discriminate|].
  intros H. rewrite (IH H).
  destruct (pair_scope_clause p c None a) eqn:E'; [|reflexivity].
  apply pair_scope_clause_true in E'.
  assert (pair_scope_clause p c scope a = true) as E''
      by (apply pair_scope_clause_true; tauto).
  congruence.
Qed.

(** The second of two creates for the same pair: the duplicate query sees
    the rows it saw before the first create, and the row the first create
    stored when that row's scope is null or the requested one. *)
Lemma create_after_create s d1 r1 s1 d2 :
  create_entity_association d1 s = (Return r1, s1) ->
  c_ParentEntityId d2 = c_ParentEntityId d1 ->
  c_ChildEntityId d2 = c_ChildEntityId d1 ->
  exists parent_entity child_entity,
    create_entity_association d2 s1 =
    match filter (pair_scope_clause (c_ParentEntityId d1) (c_ChildEntityId d1)
                    (c_ExtendedByDataModelId d2)) (associations s)
          ++ (if is_null (c_ExtendedByDataModelId d1)
                 || col_eq_int (c_ExtendedByDataModelId d1)
                      (c_ExtendedByDataModelId d2)
              then [r1] else [])
    with
    | [] =>
        let row := created_row d2 parent_entity child_entity (associations s1) in
        (Return row, with_associations (associations s1 ++ [row]) s1)
    | [_] => (Raise Conflict, s1)
    | _ :: _ :: _ => (Raise MultipleResultsFound, s1)
    end
    /\ filter (pair_scope_clause (c_ParentEntityId d1) (c_ChildEntityId d1)
                 (c_ExtendedByDataModelId d1)) (associations s) = [].
Proof.
  intros H EP EC.
  apply create_entity_association_Return in H.
  destruct H as (p & c & HP & HC & F & -> & ->).
  exists p, c. split; [|exact F].
  rewrite (create_entity_association_resolved d2 p c).
  - rewrite EP, EC. simpl associations. rewrite filter_app. simpl filter.
    now rewrite pair_scope_clause_created_row.
  - rewrite EP. now apply resolved_with_associations.
  - rewrite EC. now apply resolved_with_associations.
Qed.

(** C1, as amended: after [create_entity_association] stored an association
    for the pair (p, c) with scope [scope], a second create for (p, c) with
    scope [scope'] fails with [Conflict] when [scope' = scope], whatever its
    relationship; when [scope] is null it fails for every [scope'], with
    [Conflict] when no live row of the pair in scope [scope'] was already
    there and with [MultipleResultsFound] when one was; and when [scope] is
    not null and [scope'] is null it succeeds: an extension-scope
    association does not block a later base-scope one. *)
Theorem create_conflict_after_create s d1 r1 s1 d2 :
  create_entity_association d1 s = (Return r1, s1) ->
  c_ParentEntityId d2 = c_ParentEntityId d1 ->
  c_ChildEntityId d2 = c_ChildEntityId d1 ->
  (c_ExtendedByDataModelId d2 = c_ExtendedByDataModelId d1 ->
   create_entity_association d2 s1 = (Raise Conflict, s1))
  /\ (c_ExtendedByDataModelId d1 = None ->
      create_entity_association d2 s1 = (Raise Conflict, s1)
      \/ create_entity_association d2 s1 = (Raise MultipleResultsFound, s1))
  /\ (c_ExtendedByDataModelId d1 = None ->
      filter (pair_scope_clause (c_ParentEntityId d1) (c_ChildEntityId d1)
                (c_ExtendedByDataModelId d2)) (associations s) = [] ->
      create_entity_association d2 s1 = (Raise Conflict, s1))
  /\ (c_ExtendedByDataModelId d1 <> None ->
      c_ExtendedByDataModelId d2 = None ->
      exists r2 s2, create_entity_association d2 s1 = (Return r2, s2))
  /\ (c_ExtendedByDataModelId d1 = None ->
      filter (pair_scope_clause (c_ParentEntityId d1) (c_ChildEntityId d1)
                (c_ExtendedByDataModelId d2)) (associations s) <> [] ->
      create_entity_association d2 s1 = (Raise MultipleResultsFound, s1))
  /\ (c_ExtendedByDataModelId d1 = None ->
      (forall a, In a (associations s) ->
                 ParentEntityId a = Some (c_ParentEntityId d1) ->
                 ChildEntityId a = Some (c_ChildEntityId d1) ->
                 Deleted a = false ->
                 ExtendedByDataModelId a <> c_ExtendedByDataModelId d2) ->
      create_entity_association d2 s1 = (Raise Conflict, s1))
  /\ (c_ExtendedByDataModelId d1 = None ->
      (exists a, In a (associations s)
                 /\ ParentEntityId a = Some (c_ParentEntityId d1)
                 /\ ChildEntityId a = Some (c_ChildEntityId d1)
                 /\ Deleted a = false
                 /\ ExtendedByDataModelId a = c_ExtendedByDataModelId d2) ->
      create_entity_association d2 s1 = (Raise MultipleResultsFound, s1)).
Proof.
  intros H EP EC.
  destruct (create_after_create _ _ _ _ d2 H EP EC) as (p & c & -> & F).
  assert (c_ExtendedByDataModelId d1 = None ->
          forall rows,
            filter (pair_scope_clause (c_ParentEntityId d1)
                      (c_ChildEntityId d1) (c_ExtendedByDataModelId d2))
              (associations s) = rows ->
            rows <> [] ->
            match rows ++ (if is_null (c_ExtendedByDataModelId d1)
                              || col_eq_int (c_ExtendedByDataModelId d1)
                                   (c_ExtendedByDataModelId d2)
                           then [r1] else [])
            with
            | [] =>
                let row := created_row d2 p c (associations s1) in
                (Return row, with_associations (associations s1 ++ [row]) s1)
            | [_] => (Raise Conflict, s1)
            | _ :: _ :: _ => (Raise MultipleResultsFound, s1)
            end = (Raise MultipleResultsFound, s1)) as Many.
  { intros -> rows _ NE. simpl.
    destruct rows as [|a [|b l]]; [congruence | reflexivity | reflexivity]. }
  split; [|split; [|split; [|split; [|split; [|split]]]]].
  - intros ->. rewrite F, col_eq_int_refl, orb_true_r. reflexivity.
  - intros ->. simpl. clear F Many.
    destruct (filter _ (associations s)) as [|a [|b l]]; simpl; auto.
  - intros -> ->. reflexivity.
  - intros N ->. rewrite (filter_null_scope _ _ _ _ F).
    destruct (c_ExtendedByDataModelId d1); [|congruence]. simpl. eauto.
  - intros E NE. now apply (Many E _ eq_refl).
  - intros E Free.
    assert (filter (pair_scope_clause (c_ParentEntityId d1)
                      (c_ChildEntityId d1) (c_ExtendedByDataModelId d2))
              (associations s) = []) as ->.
    { apply filter_nil_iff. intros a I.
      destruct (pair_scope_clause _ _ _ a) eqn:Q; [|reflexivity].
      apply pair_scope_clause_true in Q.
      destruct Q as (QP & QC & QD & [QN|QS]).
      - rewrite filter_nil_iff in F. specialize (F a I).
        assert (pair_scope_clause (c_ParentEntityId d1) (c_ChildEntityId d1)
                  (c_ExtendedByDataModelId d1) a = true) as Q'
            by (apply pair_scope_clause_true; tauto).
        congruence.
      - exfalso. now apply (Free a I QP QC QD). }
    rewrite E. reflexivity.
  - intros E (a & I & QP & QC & QD & QS).
    apply (Many E _ eq_refl). intros Nil.
    assert (In a (filter (pair_scope_clause (c_ParentEntityId d1)
                            (c_ChildEntityId d1) (c_ExtendedByDataModelId d2))
                    (associations s))) as In_.
    { apply filter_In. split; [exact I|].
      apply pair_scope_clause_true. tauto. }
    rewrite Nil in In_. destruct In_.
Qed.

Lemma create_conflict_after_create_witness :
  let d1 := new_association 10 20 "contains" None in
  let d2 := new_association 10 20 "references" (Some 7) in
  let s := exec (create_entity_association
                   (new_association 10 20 "contains" (Some 7)))
             empty_session in
  let r1 := created_row d1 entity_10 entity_20 (associations s) in
  let s1 := with_associations (associations s ++ [r1]) s in
  create_entity_association d1 s = (Return r1, s1)
  /\ c_ParentEntityId d2 = c_ParentEntityId d1
  /\ c_ChildEntityId d2 = c_ChildEntityId d1
  /\ create_entity_association d1 s1 = (Raise Conflict, s1)
  /\ create_entity_association d2 s1 = (Raise MultipleResultsFound, s1).
Proof.
  intros d1 d2 s r1 s1.
  assert (create_entity_association d1 s = (Return r1, s1)) as H
      by reflexivity.
  split; [exact H|]. split; [reflexivity|]. split; [reflexivity|].
  split.
  - destruct (create_conflict_after_create _ _ _ _ d1 H eq_refl eq_refl)
      as (Same & _).
    apply Same. reflexivity.
  - destruct (create_conflict_after_create _ _ _ _ d2 H eq_refl eq_refl)
      as (_ & _ & _ & _ & _ & _ & Many).
    apply Many; [reflexivity|].
    exists (created_row (new_association 10 20 "contains" (Some 7))
              entity_10 entity_20 []).
    split; [left; reflexivity | repeat split].
Defined.

(** C1, as stated, fails: after a create in extension scope 5 the create of
    a base-scope (null) association for the same pair is not rejected. *)
Lemma create_base_after_extension_not_rejected :
  let d1 := new_association 10 20 "contains" (Some 5) in
  let d2 := new_association 10 20 "contains" None in
  let s1 := exec (create_entity_association d1) empty_session in
  (exists r1, create_entity_association d1 empty_session = (Return r1, s1))
  /\ c_ParentEntityId d2 = c_ParentEntityId d1
  /\ c_ChildEntityId d2 = c_ChildEntityId d1
  /\ c_ExtendedByDataModelId d2 = None
  /\ (exists r2, eval (create_entity_association d2) s1 = Return r2)
  /\ create_entity_association d2 s1 <> (Raise Conflict, s1).
Proof.
  intros d1 d2 s1.
  split; [eexists; vm_compute; reflexivity|].
  do 3 (split; [reflexivity|]).
  split; [eexists; vm_compute; reflexivity|].
  vm_compute. discriminate.
Qed.

(** ** Keys *)

Lemma fresh_id_above rows a : In a rows -> Id a < fresh_id rows.
Proof.
  unfold fresh_id. induction rows as [|b rows IH]; simpl; [tauto|].
  intros [->|I]; [lia|]. specialize (IH I). lia.
Qed.

Lemma find_app_fresh id rows a :
  (forall b, In b rows -> Id b <> id) -> Id a = id ->
  find (fun b => Id b =? id) (rows ++ [a]) = Some a.
Proof.
  intros N E. induction rows as [|b rows IH]; simpl.
  - now rewrite (proj2 (Z.eqb_eq _ _) E).
  - destruct (Z.eqb_spec (Id b) id) as [E'|_].
    + exfalso. apply (N b); simpl; auto.
    + apply IH. intros c I. apply N. simpl. auto.
Qed.

(** C3: a successful create stores a row whose [Extension] is the
    disjunction of the [Extension] flags of the parent and the child entity;
    the value the caller supplied in the DTO plays no part. *)
Theorem create_extension_derived s data row s' :
  create_entity_association data s = (Return row, s') ->
  exists parent_entity child_entity,
    get_entity_by_id (c_ParentEntityId data) s = (Return parent_entity, s)
    /\ get_entity_by_id (c_ChildEntityId data) s = (Return child_entity, s)
    /\ Extension row
       = Some (entity_Extension parent_entity || entity_Extension child_entity)
    /\ In row (associations s')
    /\ session_get s' (Id row) = Some row
    /\ forall supplied,
         create_entity_association (with_Extension data supplied) s
         = (Return row, s').
Proof.
  intros H. pose proof H as H0.
  apply create_entity_association_Return in H.
  destruct H as (p & c & HP & HC & F & E & ->).
  exists p, c. repeat split; try assumption.
  - now rewrite E.
  - simpl. apply in_or_app. right. simpl. auto.
  - unfold session_get. simpl. apply find_app_fresh; [|reflexivity].
    intros b I. rewrite E. simpl.
    pose proof (fresh_id_above _ _ I). lia.
  - intros v.
    rewrite (create_entity_association_resolved (with_Extension data v) p c)
      by assumption.
    simpl. rewrite F. subst row. reflexivity.
Qed.

Lemma create_extension_derived_witness :
  let data := with_Extension (new_association 10 20 "contains" None) (Some false) in
  let row := created_row data entity_10 entity_20 [] in
  let s' := with_associations [row] empty_session in
  create_entity_association data empty_session = (Return row, s')
  /\ Extension row = Some true.
Proof.
  intros data row s'.
  assert (create_entity_association data empty_session = (Return row, s'))
    as H by reflexivity.
  split; [exact H|].
  destruct (create_extension_derived _ _ _ _ H) as (p & c & HP & HC & E & _).
  rewrite E.
  assert (p = entity_10) as -> by (vm_compute in HP; now injection HP as <-).
  assert (c = entity_20) as -> by (vm_compute in HC; now injection HC as <-).
  reflexivity.
Defined.

(** C4, as amended: after a create for the pair (p, c) in extension scope
    [s1], a create for the same pair in a different extension scope [s2]
    succeeds, provided no live association of the pair was in scope [s2]
    before the first create: the row of scope [s1] does not conflict with
    it, and both rows are stored. *)
Theorem create_distinct_scopes_independent s d1 r1 st1 d2 s1 s2 :
  create_entity_association d1 s = (Return r1, st1) ->
  c_ParentEntityId d2 = c_ParentEntityId d1 ->
  c_ChildEntityId d2 = c_ChildEntityId d1 ->
  c_ExtendedByDataModelId d1 = Some s1 ->
  c_ExtendedByDataModelId d2 = Some s2 ->
  s1 <> s2 ->
  (forall a, In a (associations s) ->
             ParentEntityId a = Some (c_ParentEntityId d1) ->
             ChildEntityId a = Some (c_ChildEntityId d1) ->
             Deleted a = false -> ExtendedByDataModelId a <> Some s2) ->
  exists r2 st2,
    create_entity_association d2 st1 = (Return r2, st2)
    /\ In r1 (associations st2) /\ In r2 (associations st2)
    /\ ExtendedByDataModelId r1 = Some s1
    /\ ExtendedByDataModelId r2 = Some s2.
Proof.
  intros H EP EC E1 E2 N Free.
  destruct (create_after_create _ _ _ _ d2 H EP EC) as (p & c & -> & F).
  apply create_entity_association_Return in H.
  destruct H as (p1 & c1 & _ & _ & _ & Er & Es).
  assert (filter (pair_scope_clause (c_ParentEntityId d1) (c_ChildEntityId d1)
                    (c_ExtendedByDataModelId d2)) (associations s) = []) as F2.
  { apply filter_nil_iff. intros a I.
    destruct (pair_scope_clause _ _ _ a) eqn:Q; [|reflexivity].
    apply pair_scope_clause_true in Q. destruct Q as (QP & QC & QD & [QN|QS]).
    - rewrite filter_nil_iff in F. specialize (F a I).
      assert (pair_scope_clause (c_ParentEntityId d1) (c_ChildEntityId d1)
                (c_ExtendedByDataModelId d1) a = true) as Q'
          by (apply pair_scope_clause_true; tauto).
      congruence.
    - exfalso. apply (Free a I QP QC QD). congruence. }
  rewrite F2, E1, E2. simpl.
  destruct (Z.eqb_spec s1 s2) as [|_]; [contradiction|]. simpl.
  do 2 eexists. split; [reflexivity|]. subst st1. simpl.
  repeat split.
  - apply in_or_app. left. apply in_or_app. right. simpl. auto.
  - apply in_or_app. right. simpl. auto.
  - now rewrite Er.
  - assumption.
Qed.

Lemma create_distinct_scopes_independent_witness :
  let s := exec (create_entity_association
                   (new_association 10 30 "references" None))
             (exec (create_entity_association
                      (new_association 10 20 "contains" (Some 9)))
                empty_session) in
  let d1 := new_association 10 20 "contains" (Some 5) in
  let d2 := new_association 10 20 "references" (Some 7) in
  let r1 := created_row d1 entity_10 entity_20 (associations s) in
  let st1 := with_associations (associations s ++ [r1]) s in
  List.length (associations s) = 2%nat
  /\ create_entity_association d1 s = (Return r1, st1)
  /\ exists r2 st2,
       create_entity_association d2 st1 = (Return r2, st2)
       /\ In r1 (associations st2) /\ In r2 (associations st2)
       /\ ExtendedByDataModelId r1 = Some 5
       /\ ExtendedByDataModelId r2 = Some 7.
Proof.
  intros s d1 d2 r1 st1.
  assert (create_entity_association d1 s = (Return r1, st1))
    as H by reflexivity.
  split; [reflexivity|]. split; [exact H|].
  apply (create_distinct_scopes_independent _ _ _ _ d2 5 7 H);
    try reflexivity; [lia|].
  intros a I _ _ _. vm_compute in I.
  destruct I as [<-|[<-|[]]]; discriminate.
Defined.

(** C4, as stated, fails: with a live association of the pair in scope 7
    already there, the create in scope 5 succeeds and the create in scope 7
    that follows it is refused. *)
Lemma create_second_scope_taken :
  let s := exec (create_entity_association
                   (new_association 10 20 "contains" (Some 7)))
             empty_session in
  let d1 := new_association 10 20 "rel" (Some 5) in
  let d2 := new_association 10 20 "rel2" (Some 7) in
  let s1 := exec (create_entity_association d1) s in
  (exists r1, create_entity_association d1 s = (Return r1, s1))
  /\ c_ParentEntityId d2 = c_ParentEntityId d1
  /\ c_ChildEntityId d2 = c_ChildEntityId d1
  /\ c_ExtendedByDataModelId d1 = Some 5
  /\ c_ExtendedByDataModelId d2 = Some 7
  /\ create_entity_association d2 s1 = (Raise Conflict, s1)
  /\ ~ exists r2 s2, create_entity_association d2 s1 = (Return r2, s2).
Proof.
  intros s d1 d2 s1.
  split; [eexists; vm_compute; reflexivity|].
  do 4 (split; [reflexivity|]).
  assert (create_entity_association d2 s1 = (Raise Conflict, s1)) as R
      by reflexivity.
  split; [exact R|]. intros (r2 & s2 & E). rewrite R in E. discriminate.
Qed.

(** C8: the duplicate check of [create_entity_association] extracts a
    single row.  With both entities resolved, the create raises
    [MultipleResultsFound] when two or more rows match the duplicate query,
    raises [Conflict] exactly when one row matches, and stores the
    association exactly when none does. *)
Theorem create_duplicate_check_single_row s data parent_entity child_entity :
  get_entity_by_id (c_ParentEntityId data) s = (Return parent_entity, s) ->
  get_entity_by_id (c_ChildEntityId data) s = (Return child_entity, s) ->
  let matching :=
    filter (pair_scope_clause (c_ParentEntityId data) (c_ChildEntityId data)
              (c_ExtendedByDataModelId data)) (associations s) in
  ((2 <= List.length matching)%nat ->
   create_entity_association data s = (Raise MultipleResultsFound, s))
  /\ (create_entity_association data s = (Raise Conflict, s)
      <-> List.length matching = 1%nat)
  /\ ((exists row s', create_entity_association data s = (Return row, s'))
      <-> List.length matching = 0%nat).
Proof.
  intros HP HC matching.
  rewrite (create_entity_association_resolved _ _ _ _ HP HC).
  fold matching. destruct matching as [|a [|b l]]; simpl.
  - repeat split; try lia; try discriminate; eauto.
  - repeat split; try lia; try discriminate.
    intros (row & s' & H). discriminate.
  - repeat split; try lia; try discriminate.
    intros (row & s' & H). discriminate.
Qed.

Lemma create_duplicate_check_single_row_witness :
  let s1 := exec (create_entity_association
                    (new_association 10 20 "contains" (Some 7))) empty_session in
  let s2 := exec (create_entity_association
                    (new_association 10 20 "contains" None)) s1 in
  let data := new_association 10 20 "references" (Some 7) in
  get_entity_by_id (c_ParentEntityId data) s2 = (Return entity_10, s2)
  /\ get_entity_by_id (c_ChildEntityId data) s2 = (Return entity_20, s2)
  /\ List.length (associations s2) = 2%nat
  /\ create_entity_association data s2 = (Raise MultipleResultsFound, s2).
Proof.
  intros s1 s2 data.
  assert (get_entity_by_id (c_ParentEntityId data) s2 = (Return entity_10, s2))
    as HP by reflexivity.
  assert (get_entity_by_id (c_ChildEntityId data) s2 = (Return entity_20, s2))
    as HC by reflexivity.
  split; [exact HP|]. split; [exact HC|]. split; [reflexivity|].
  apply (create_duplicate_check_single_row _ _ _ _ HP HC).
  vm_compute. lia.
Defined.

(** ** Rows addressed by their key *)

Lemma session_get_Some s id a :
  session_get s id = Some a -> Id a = id /\ In a (associations s).
Proof.
  unfold session_get. intros H. apply find_some in H.
  destruct H as [I E]. apply Z.eqb_eq in E. auto.
Qed.

Lemma find_update_row a' rows b :
  find (fun a => Id a =? Id a') rows = Some b ->
  find (fun a => Id a =? Id a') (update_row a' rows) = Some a'.
Proof.
  induction rows as [|a rows IH]; simpl; [discriminate|].
  destruct (Id a =? Id a') eqn:E; simpl.
  - intros _. now rewrite Z.eqb_refl.
  - rewrite E. exact IH.
Qed.

Lemma map_Id_update_row a' rows :
  map Id (update_row a' rows) = map Id rows.
Proof.
  induction rows as [|a rows IH]; simpl; [reflexivity|].
  destruct (Z.eqb_spec (Id a) (Id a')) as [E|_]; simpl; congruence.
Qed.

Lemma length_update_row a' rows :
  List.length (update_row a' rows) = List.length rows.
Proof.
  rewrite <- (length_map Id (update_row a' rows)), map_Id_update_row.
  apply length_map.
Qed.

Lemma in_update_row a' rows b :
  NoDup (map Id rows) ->
  In b (update_row a' rows) -> b = a' \/ (In b rows /\ Id b <> Id a').
Proof.
  induction rows as [|a rows IH]; simpl; [tauto|].
  intros ND. inversion ND as [|k ks NI ND' ]; subst.
  destruct (Z.eqb_spec (Id a) (Id a')) as [E|N]; simpl.
  - intros [<-|I]; [now left|]. right. split; [auto|].
    intros Eb. apply NI. rewrite E, <- Eb. now apply in_map.
  - intros [<-|I]; [right; auto|].
    destruct (IH ND' I) as [->|[I' N']]; auto.
Qed.

Lemma update_row_other a' rows b :
  In b rows -> Id b <> Id a' -> In b (update_row a' rows).
Proof.
  induction rows as [|a rows IH]; simpl; [tauto|].
  destruct (Z.eqb_spec (Id a) (Id a')) as [E|N]; simpl.
  - intros [<-|I] Nb; [congruence | auto].
  - intros [<-|I] Nb; auto.
Qed.

Lemma find_delete_row id rows :
  NoDup (map Id rows) ->
  find (fun a => Id a =? id) (delete_row id rows) = None.
Proof.
  induction rows as [|a rows IH]; simpl; [reflexivity|].
  intros ND. inversion ND as [|k ks NI ND']; subst.
  destruct (Z.eqb_spec (Id a) id) as [E|N]; simpl.
  - destruct (find _ rows) as [b|] eqn:F; [|reflexivity].
    apply find_some in F. destruct F as [I Eb]. apply Z.eqb_eq in Eb.
    exfalso. apply NI. rewrite E, <- Eb. now apply in_map.
  - destruct (Z.eqb_spec (Id a) id); [contradiction|]. now apply IH.
Qed.

(** ** Deleting *)

Lemma soft_delete_entity_association_Return id s m s' :
  soft_delete_entity_association id s = (Return m, s') ->
  exists a,
    session_get s id = Some a /\ Deleted a = false
    /\ s' = with_associations
              (update_row (with_Deleted a true) (associations s)) s.
Proof.
  unfold soft_delete_entity_association, bind. intros H.
  destruct (get_entity_association_by_id_cases s id)
    as [(a & G & S & D)|[G _]]; rewrite G in H; [|discriminate].
  exists a. simpl in H. injection H as _ <-. auto.
Qed.

Lemma get_after_soft_delete id s a :
  session_get s id = Some a ->
  session_get
    (with_associations (update_row (with_Deleted a true) (associations s)) s) id
  = Some (with_Deleted a true).
Proof.
  intros S. destruct (session_get_Some _ _ _ S) as [E _].
  unfold session_get in *. simpl associations.
  replace id with (Id (with_Deleted a true)) by exact E.
  apply find_update_row with (b := a).
  simpl. now rewrite E.
Qed.

Lemma map_from_orm rows : map from_orm rows = rows.
Proof. unfold from_orm. apply map_id. Qed.

(** The rows [get_entity_associations_by_parent_entity_id] returns. *)
Lemma by_parent_entity_id_Return parent including s l s' :
  get_entity_associations_by_parent_entity_id parent including s = (Return l, s') ->
  s' = s
  /\ forall a, In a l ->
       In a (associations s) /\ ParentEntityId a = Some parent
       /\ Deleted a = false
       /\ (ExtendedByDataModelId a = None
           \/ (truthy_int including = true
               /\ ExtendedByDataModelId a = including)).
Proof.
  unfold get_entity_associations_by_parent_entity_id, bind, check_entity_by_id.
  destruct (get_entity_by_id_cases s parent) as [(e & G & _)|G]; rewrite G;
    [|discriminate].
  simpl. rewrite map_from_orm. intros H. injection H as <- <-.
  split; [reflexivity|]. intros a I.
  destruct (truthy_int including) eqn:T; apply filter_In in I;
    destruct I as [I Q];
    rewrite !andb_true_iff, ?orb_true_iff, negb_true_iff,
      !col_eq_int_true, is_null_true in Q;
    tauto.
Qed.

(** C5: after a successful soft delete of the association [id],
    [get_entity_association_by_id] fails with [NotFound], no listing by
    parent entity returns a row with this id, and the row is still in the
    table, flagged deleted. *)
Theorem soft_delete_excludes s id m s' :
  primary_key s ->
  soft_delete_entity_association id s = (Return m, s') ->
  get_entity_association_by_id id s' = (Raise NotFound, s')
  /\ (forall parent including l st,
        get_entity_associations_by_parent_entity_id parent including s'
        = (Return l, st) ->
        forall a, In a l -> Id a <> id)
  /\ (exists row, session_get s' id = Some row /\ In row (associations s')
                  /\ Deleted row = true)
  /\ List.length (associations s') = List.length (associations s).
Proof.
  intros PK H.
  apply soft_delete_entity_association_Return in H.
  destruct H as (a & S & D & ->).
  pose proof (get_after_soft_delete id s a S) as G.
  destruct (session_get_Some _ _ _ S) as [E _].
  repeat split.
  - unfold get_entity_association_by_id. now rewrite G.
  - intros parent including l st L b I Eb.
    apply by_parent_entity_id_Return in L. destruct L as [_ L].
    destruct (L b I) as (Ib & _ & Db & _). simpl in Ib.
    apply in_update_row in Ib; [|exact PK].
    destruct Ib as [->|[_ N]]; [discriminate Db|].
    apply N. simpl. congruence.
  - exists (with_Deleted a true). split; [exact G|].
    split; [|reflexivity]. now apply session_get_Some in G.
  - simpl. apply length_update_row.
Qed.

Lemma soft_delete_excludes_witness :
  let s := exec (create_entity_association
                   (new_association 10 20 "contains" None)) empty_session in
  let s' := exec (soft_delete_entity_association 1) s in
  primary_key s
  /\ soft_delete_entity_association 1 s = (Return (deleted_successfully 1), s')
  /\ get_entity_association_by_id 1 s' = (Raise NotFound, s')
  /\ List.length (associations s') = 1%nat.
Proof.
  intros s s'.
  assert (primary_key s) as PK
      by (repeat constructor; simpl; tauto).
  assert (soft_delete_entity_association 1 s
          = (Return (deleted_successfully 1), s')) as H by reflexivity.
  split; [exact PK|]. split; [exact H|].
  destruct (soft_delete_excludes _ _ _ _ PK H) as (G & _ & _ & L).
  split; [exact G|]. rewrite L. reflexivity.
Defined.

(** ** Operations on a deleted row *)

Lemma get_deleted s id a :
  session_get s id = Some a -> Deleted a = true ->
  get_entity_association_by_id id s = (Raise NotFound, s).
Proof.
  intros S D. unfold get_entity_association_by_id. now rewrite S, D.
Qed.

Lemma by_id_operations_after_NotFound s id :
  get_entity_association_by_id id s = (Raise NotFound, s) ->
  (forall dto, update_entity_association id dto s = (Raise NotFound, s))
  /\ delete_entity_association id s = (Raise NotFound, s)
  /\ soft_delete_entity_association id s = (Raise NotFound, s).
Proof.
  intros G.
  unfold update_entity_association, delete_entity_association,
    soft_delete_entity_association, bind.
  rewrite G. auto.
Qed.

(** C10: every by-id operation on a row whose [Deleted] flag is set fails
    with [NotFound] and leaves the session as it is; so after a successful
    soft delete the row can be neither soft-deleted again nor hard-deleted,
    and it stays in the table. *)
Theorem deleted_row_not_found s id :
  (forall a, session_get s id = Some a -> Deleted a = true ->
     get_entity_association_by_id id s = (Raise NotFound, s)
     /\ (forall dto, update_entity_association id dto s = (Raise NotFound, s))
     /\ delete_entity_association id s = (Raise NotFound, s)
     /\ soft_delete_entity_association id s = (Raise NotFound, s))
  /\ (forall m s', soft_delete_entity_association id s = (Return m, s') ->
        soft_delete_entity_association id s' = (Raise NotFound, s')
        /\ delete_entity_association id s' = (Raise NotFound, s')
        /\ exists row, session_get s' id = Some row /\ Deleted row = true).
Proof.
  split.
  - intros a S D. pose proof (get_deleted s id a S D) as G.
    split; [exact G|]. now apply by_id_operations_after_NotFound.
  - intros m s' H.
    apply soft_delete_entity_association_Return in H.
    destruct H as (a & S & _ & ->).
    pose proof (get_after_soft_delete id s a S) as G.
    pose proof (get_deleted _ id _ G eq_refl) as N.
    apply by_id_operations_after_NotFound in N.
    destruct N as (_ & ND & NS). repeat split; try assumption.
    exists (with_Deleted a true). auto.
Qed.

Lemma deleted_row_not_found_witness :
  let s := exec (create_entity_association
                   (new_association 10 20 "contains" None)) empty_session in
  let s' := exec (soft_delete_entity_association 1) s in
  soft_delete_entity_association 1 s = (Return (deleted_successfully 1), s')
  /\ soft_delete_entity_association 1 s' = (Raise NotFound, s')
  /\ delete_entity_association 1 s' = (Raise NotFound, s')
  /\ update_entity_association 1 empty_patch s' = (Raise NotFound, s').
Proof.
  intros s s'.
  assert (soft_delete_entity_association 1 s
          = (Return (deleted_successfully 1), s')) as H by reflexivity.
  split; [exact H|].
  destruct (proj2 (deleted_row_not_found s 1) _ _ H) as (NS & ND & row & G & D).
  split; [exact NS|]. split; [exact ND|].
  apply (proj1 (deleted_row_not_found s' 1) row G D).
Defined.

(** ** Updating *)

Lemma check_if_given_cases v s :
  check_if_given v s = (Return tt, s)
  \/ (truthy_int v = true /\ check_if_given v s = (Raise NotFound, s)).
Proof.
  unfold check_if_given, truthy_int.
  destruct v as [z|]; [|now left].
  destruct (z =? 0); [now left|]. simpl.
  unfold bind, check_entity_by_id.
  destruct (get_entity_by_id_cases s z) as [(e & G & _)|G]; rewrite G;
    [now left | now right].
Qed.

(** What [update_entity_association] does once the row and the entities the
    patch names are found. *)
Lemma update_entity_association_checked id dto s ea :
  get_entity_association_by_id id s = (Return ea, s) ->
  check_if_given (attr (u_ParentEntityId dto)) s = (Return tt, s) ->
  check_if_given (attr (u_ChildEntityId dto)) s = (Return tt, s) ->
  update_entity_association id dto s =
  if endpoint_given dto
  then match first (update_matching dto ea (associations s)) with
       | Some existing =>
           if negb (Id existing =? id) then (Raise Conflict, s)
           else (Return (apply_patch ea dto), updated_session ea dto s)
       | None => (Return (apply_patch ea dto), updated_session ea dto s)
       end
  else (Return (apply_patch ea dto), updated_session ea dto s).
Proof.
  intros G HP HC.
  unfold update_entity_association, bind. rewrite G, HP, HC.
  destruct (endpoint_given dto); [|reflexivity].
  unfold get_entity_association_by_parent_child_relationship, bind, gets, ret.
  fold (update_matching dto ea (associations s)).
  destruct (first (update_matching dto ea (associations s))) as [e|];
    [|reflexivity].
  destruct (negb (Id e =? id)); reflexivity.
Qed.

Lemma update_entity_association_unchecked id dto s ea :
  get_entity_association_by_id id s = (Return ea, s) ->
  check_if_given (attr (u_ParentEntityId dto)) s = (Raise NotFound, s)
  \/ check_if_given (attr (u_ChildEntityId dto)) s = (Raise NotFound, s) ->
  update_entity_association id dto s = (Raise NotFound, s).
Proof.
  intros G H. unfold update_entity_association, bind. rewrite G.
  destruct (check_if_given_cases (attr (u_ParentEntityId dto)) s)
    as [HP|[_ HP]]; rewrite HP; [|reflexivity].
  destruct H as [H|H]; [congruence|]. now rewrite H.
Qed.

(** Every way [update_entity_association] can end. *)
Lemma update_entity_association_cases id dto s :
  update_entity_association id dto s = (Raise NotFound, s)
  \/ update_entity_association id dto s = (Raise Conflict, s)
  \/ exists ea,
       get_entity_association_by_id id s = (Return ea, s)
       /\ update_entity_association id dto s
          = (Return (apply_patch ea dto), updated_session ea dto s).
Proof.
  destruct (get_entity_association_by_id_cases s id)
    as [(ea & G & _)|[G _]];
    [|left; now apply by_id_operations_after_NotFound].
  destruct (check_if_given_cases (attr (u_ParentEntityId dto)) s)
    as [HP|[_ HP]];
    [|left; eapply update_entity_association_unchecked; eauto].
  destruct (check_if_given_cases (attr (u_ChildEntityId dto)) s)
    as [HC|[_ HC]];
    [|left; eapply update_entity_association_unchecked; eauto].
  rewrite (update_entity_association_checked id dto s ea G HP HC).
  destruct (endpoint_given dto); [|right; right; eauto].
  destruct (first _) as [e|]; [|right; right; eauto].
  destruct (negb _); [right; left; reflexivity | right; right; eauto].
Qed.

Lemma patched_assign {A} (f : patch A) old : patched f old (assign f old).
Proof.
  unfold patched. destruct f; simpl; split; intros; congruence.
Qed.

(** C6: a successful update stores, under the same key, the old row with
    exactly the fields that are set in the patch overwritten; every unset
    field, the key and the [Deleted] flag keep their values, and the other
    rows and tables are not touched. *)
Theorem update_partial s id dto row s' :
  update_entity_association id dto s = (Return row, s') ->
  exists old,
    get_entity_association_by_id id s = (Return old, s)
    /\ session_get s' id = Some row
    /\ Id row = Id old /\ Deleted row = Deleted old
    /\ patched (u_ParentEntityId dto) (ParentEntityId old) (ParentEntityId row)
    /\ patched (u_ChildEntityId dto) (ChildEntityId old) (ChildEntityId row)
    /\ patched (u_Relationship dto) (Relationship old) (Relationship row)
    /\ patched (u_Placement dto) (Placement old) (Placement row)
    /\ patched (u_Notes dto) (Notes old) (Notes row)
    /\ patched (u_CreationDate dto) (CreationDate old) (CreationDate row)
    /\ patched (u_ActivationDate dto) (ActivationDate old) (ActivationDate row)
    /\ patched (u_DeprecationDate dto) (DeprecationDate old)
         (DeprecationDate row)
    /\ patched (u_Contributor dto) (Contributor old) (Contributor row)
    /\ patched (u_ContributorOrganization dto) (ContributorOrganization old)
         (ContributorOrganization row)
    /\ patched (u_Extension dto) (Extension old) (Extension row)
    /\ patched (u_ExtendedByDataModelId dto) (ExtendedByDataModelId old)
         (ExtendedByDataModelId row)
    /\ (forall b, In b (associations s) -> Id b <> id ->
                  In b (associations s'))
    /\ entities s' = entities s /\ data_models s' = data_models s
    /\ inclusions s' = inclusions s.
Proof.
  intros H.
  destruct (update_entity_association_cases id dto s)
    as [N|[N|(old & G & U)]]; try congruence.
  rewrite U in H. injection H as <- <-.
  exists old. split; [exact G|].
  apply get_entity_association_by_id_Return in G. destruct G as [S _].
  destruct (session_get_Some _ _ _ S) as [E _].
  split.
  { unfold session_get in *. simpl associations.
    replace id with (Id (apply_patch old dto)) by exact E.
    apply find_update_row with (b := old). simpl. now rewrite E. }
  simpl. repeat split; try apply patched_assign.
  intros b I N. apply update_row_other; [exact I|]. simpl. congruence.
Qed.

Lemma update_partial_witness :
  let s := exec (create_entity_association
                   (new_association 10 20 "contains" None)) empty_session in
  let old := created_row (new_association 10 20 "contains" None)
               entity_10 entity_20 [] in
  let dto := mkUpdateDTO unset unset unset unset (set_to (Some "x")) unset
               unset unset unset unset unset unset in
  let row := apply_patch old dto in
  update_entity_association 1 dto s = (Return row, updated_session old dto s)
  /\ Notes row = Some "x"
  /\ Relationship row = Relationship old
  /\ ExtendedByDataModelId row = ExtendedByDataModelId old.
Proof.
  intros s old dto row.
  assert (update_entity_association 1 dto s
          = (Return row, updated_session old dto s)) as H by reflexivity.
  split; [exact H|].
  destruct (update_partial _ _ _ _ _ H)
    as (old' & G & _ & _ & _ & _ & _ & PR & _ & PN & _ & _ & _ & _ & _ & _
        & PE & _).
  assert (old' = old) as -> by (vm_compute in G; now injection G as <-).
  split; [apply (proj2 PN); reflexivity|].
  split; [apply (proj1 PR); reflexivity | apply (proj1 PE); reflexivity].
Defined.

(** C9: an update that fails, fails with [NotFound] or [Conflict], and
    leaves the session, hence the stored association, as it was: nothing is
    written before the last check has passed. *)
Theorem update_failure_leaves_session s id dto e s' :
  update_entity_association id dto s = (Raise e, s') ->
  s' = s /\ (e = NotFound \/ e = Conflict)
  /\ session_get s' id = session_get s id.
Proof.
  intros H.
  destruct (update_entity_association_cases id dto s)
    as [N|[N|(old & G & U)]]; rewrite H in *.
  - injection N as -> ->. auto.
  - injection N as -> ->. auto.
  - discriminate.
Qed.

Lemma update_failure_leaves_session_witness :
  let dto := mkUpdateDTO (set_to (Some 10)) unset (set_to (Some "rel")) unset
               (set_to (Some "x")) unset unset unset unset unset unset unset in
  let s := two_associations in
  update_entity_association 2 dto s = (Raise Conflict, s)
  /\ (s = s /\ (Conflict = NotFound \/ Conflict = Conflict)
      /\ session_get s 2 = session_get s 2).
Proof.
  intros dto s.
  assert (update_entity_association 2 dto s = (Raise Conflict, s)) as H
      by reflexivity.
  split; [exact H|].
  exact (update_failure_leaves_session _ _ _ _ _ H).
Defined.

(** ** The duplicate check of an update *)

(** The duplicate query of an update, read as a proposition. *)
Lemma update_matching_In dto ea rows e :
  In e (update_matching dto ea rows)
  <-> In e rows
      /\ ParentEntityId e = updated_parent_entity_id dto ea
      /\ ChildEntityId e = updated_child_entity_id dto ea
      /\ Relationship e = updated_relationship dto ea
      /\ (ExtendedByDataModelId e = None
          \/ ExtendedByDataModelId e = updated_extended_by_data_model_id dto ea)
      /\ Deleted e = false.
Proof.
  unfold update_matching, parent_child_relationship_clause.
  rewrite filter_In, !andb_true_iff, orb_true_iff, negb_true_iff,
    !col_eq_int_true, col_eq_str_true, is_null_true.
  tauto.
Qed.

Lemma first_In {A} (l : list A) a : first l = Some a -> In a l.
Proof. destruct l; simpl; [discriminate|]. intros H. injection H as ->. auto. Qed.

Lemma checked_field_int f old :
  checked_field truthy_int f old
    (if truthy_int (attr f) then attr f else old).
Proof.
  unfold checked_field. destruct f as [|v]; simpl.
  - repeat split; intros; congruence.
  - split; [intros E; discriminate E|].
    split; intros v' E T; injection E as <-; now rewrite T.
Qed.

Lemma checked_field_str f old :
  checked_field truthy_str f old
    (if truthy_str (attr f) then attr f else old).
Proof.
  unfold checked_field. destruct f as [|v]; simpl.
  - repeat split; intros; congruence.
  - split; [intros E; discriminate E|].
    split; intros v' E T; injection E as <-; now rewrite T.
Qed.

(** C2, as amended: the duplicate check of an update runs only when the
    patch carries a parent or a child entity id that is not 0.  The tuple
    it checks takes parent, child, relationship and scope from the patch
    where the patch sets a true value and from the stored row otherwise.
    With the entities found, the update fails with [Conflict] whenever a
    live row with that parent, child and relationship and a scope that is
    null or the checked scope exists and no such row has the id being
    updated; it goes through when every such row has that id; and it fails
    with [Conflict] only if such a row with another id exists.  A patch
    that carries neither id (only a relationship, a scope, a placement,
    ...) is applied without any duplicate check. *)
Theorem update_duplicate_check s id dto ea :
  get_entity_association_by_id id s = (Return ea, s) ->
  let matching := update_matching dto ea (associations s) in
  let stored := (Return (apply_patch ea dto), updated_session ea dto s) in
  checked_field truthy_int (u_ParentEntityId dto) (ParentEntityId ea)
    (updated_parent_entity_id dto ea)
  /\ checked_field truthy_int (u_ChildEntityId dto) (ChildEntityId ea)
       (updated_child_entity_id dto ea)
  /\ checked_field truthy_str (u_Relationship dto) (Relationship ea)
       (updated_relationship dto ea)
  /\ checked_field truthy_int (u_ExtendedByDataModelId dto)
       (ExtendedByDataModelId ea) (updated_extended_by_data_model_id dto ea)
  /\ (forall e,
        In e matching <->
        In e (associations s)
        /\ ParentEntityId e = updated_parent_entity_id dto ea
        /\ ChildEntityId e = updated_child_entity_id dto ea
        /\ Relationship e = updated_relationship dto ea
        /\ (ExtendedByDataModelId e = None
            \/ ExtendedByDataModelId e
               = updated_extended_by_data_model_id dto ea)
        /\ Deleted e = false)
  /\ (endpoint_given dto = true ->
      check_if_given (attr (u_ParentEntityId dto)) s = (Return tt, s) ->
      check_if_given (attr (u_ChildEntityId dto)) s = (Return tt, s) ->
      ((exists e, In e matching) -> (forall e, In e matching -> Id e <> id) ->
       update_entity_association id dto s = (Raise Conflict, s))
      /\ ((forall e, In e matching -> Id e = id) ->
          update_entity_association id dto s = stored)
      /\ (update_entity_association id dto s = (Raise Conflict, s) ->
          exists e, In e matching /\ Id e <> id)
      /\ (update_entity_association id dto s = (Raise Conflict, s)
          \/ update_entity_association id dto s = stored))
  /\ (endpoint_given dto = false ->
      update_entity_association id dto s = stored).
Proof.
  intros G matching stored.
  split; [apply checked_field_int|]. split; [apply checked_field_int|].
  split; [apply checked_field_str|]. split; [apply checked_field_int|].
  split; [intros e; apply update_matching_In|]. split.
  - intros EG HP HC.
    rewrite (update_entity_association_checked id dto s ea G HP HC), EG.
    fold matching. fold stored.
    destruct (first matching) as [e|] eqn:F.
    + apply first_In in F.
      destruct (Z.eqb_spec (Id e) id) as [E|N]; simpl.
      * split; [|split; [|split]].
        -- intros _ D. now apply D in F.
        -- reflexivity.
        -- discriminate.
        -- now right.
      * split; [|split; [|split]].
        -- reflexivity.
        -- intros A. now apply A in F.
        -- intros _. exists e. auto.
        -- now left.
    + split; [|split; [|split]].
      * intros (e & I) _. destruct matching; [destruct I | discriminate].
      * reflexivity.
      * discriminate.
      * now right.
  - intros EG. unfold endpoint_given in EG.
    apply orb_false_iff in EG. destruct EG as [TP TC].
    destruct (check_if_given_cases (attr (u_ParentEntityId dto)) s)
      as [HP|[T _]]; [|congruence].
    destruct (check_if_given_cases (attr (u_ChildEntityId dto)) s)
      as [HC|[T _]]; [|congruence].
    rewrite (update_entity_association_checked id dto s ea G HP HC).
    unfold endpoint_given. now rewrite TP, TC.
Qed.

Lemma update_duplicate_check_witness :
  let s := two_associations in
  let old := created_row (new_association 30 20 "rel2" None)
               entity_30 entity_20
               [created_row (new_association 10 20 "rel" None)
                  entity_10 entity_20 []] in
  let dto := mkUpdateDTO (set_to (Some 10)) unset (set_to (Some "rel")) unset
               unset unset unset unset unset unset unset unset in
  get_entity_association_by_id 2 s = (Return old, s)
  /\ endpoint_given dto = true
  /\ update_entity_association 2 dto s = (Raise Conflict, s)
  /\ endpoint_given (placement_patch "top") = false
  /\ update_entity_association 2 (placement_patch "top") s
     = (Return (apply_patch old (placement_patch "top")),
        updated_session old (placement_patch "top") s).
Proof.
  intros s old dto.
  assert (get_entity_association_by_id 2 s = (Return old, s)) as G
      by reflexivity.
  split; [exact G|]. split; [reflexivity|]. split.
  - destruct (update_duplicate_check s 2 dto old G)
      as (_ & _ & _ & _ & _ & Guarded & _).
    destruct (Guarded eq_refl eq_refl eq_refl) as (Refused & _).
    apply Refused.
    + eexists. vm_compute. eauto.
    + intros e I. vm_compute in I. destruct I as [<-|[]]. vm_compute. lia.
  - split; [reflexivity|].
    destruct (update_duplicate_check s 2 (placement_patch "top") old G)
      as (_ & _ & _ & _ & _ & _ & Free).
    apply Free. reflexivity.
Defined.

(** When the row being updated matches the checked tuple itself and
    another row does too, the answer of the unordered query decides: with
    the same two rows the update goes through when the row itself comes
    first and fails with [Conflict] when the other row does. *)
Example update_both_match_order_decides :
  let s12 := with_associations [base_row; scoped_row] empty_session in
  let s21 := with_associations [scoped_row; base_row] empty_session in
  In base_row (update_matching scope_patch base_row (associations s12))
  /\ In scoped_row (update_matching scope_patch base_row (associations s12))
  /\ eval (update_entity_association 1 scope_patch) s12
     = Return (apply_patch base_row scope_patch)
  /\ eval (update_entity_association 1 scope_patch) s21 = Raise Conflict.
Proof.
  intros s12 s21.
  split; [vm_compute; auto|]. split; [vm_compute; auto|].
  split; reflexivity.
Qed.

(** C2, as stated, fails: with associations (10, 20, "rel", null) of id 1
    and (10, 20, "rel2", null) of id 2, the update of the relationship of 2
    to "rel" changes the relationship, another live association has the
    effective tuple, and the update goes through. *)
Lemma update_relationship_duplicate_not_rejected :
  let s := two_relationships in
  let dto := relationship_patch "rel" in
  exists old other row s',
    get_entity_association_by_id 2 s = (Return old, s)
    /\ Relationship old = Some "rel2"
    /\ updated_relationship dto old = Some "rel"
    /\ In other (associations s) /\ Id other = 1 /\ Deleted other = false
    /\ ParentEntityId other = updated_parent_entity_id dto old
    /\ ChildEntityId other = updated_child_entity_id dto old
    /\ Relationship other = updated_relationship dto old
    /\ ExtendedByDataModelId other = None
    /\ update_entity_association 2 dto s = (Return row, s')
    /\ Relationship row = Some "rel"
    /\ update_entity_association 2 dto s <> (Raise Conflict, s).
Proof.
  intros s dto.
  eexists. eexists. eexists. eexists.
  split; [vm_compute; reflexivity|].
  do 2 (split; [reflexivity|]).
  split; [vm_compute; left; reflexivity|].
  do 6 (split; [reflexivity|]).
  split; [vm_compute; reflexivity|].
  split; [reflexivity|].
  vm_compute. discriminate.
Qed.

(** ** Listing by data model *)

Lemma col_in_true col ids :
  col_in col ids = true <-> exists p, col = Some p /\ In p ids.
Proof.
  unfold col_in. destruct col as [a|].
  - rewrite existsb_exists. split.
    + intros (x & I & E). apply Z.eqb_eq in E. subst. eauto.
    + intros (p & E & I). injection E as ->. exists p.
      split; [exact I | apply Z.eqb_refl].
  - split; [discriminate | intros (p & E & _); discriminate].
Qed.

Lemma included_entity_ids_In s data_model_id e :
  In e (included_entity_ids data_model_id (inclusions s))
  <-> included s data_model_id e.
Proof.
  unfold included_entity_ids, included. rewrite in_map_iff.
  split.
  - intros (i & E & I). apply filter_In in I. destruct I as [I Q].
    rewrite !andb_true_iff, negb_true_iff, Z.eqb_eq, String.eqb_eq in Q.
    exists i. tauto.
  - intros (i & I & E1 & E2 & E3 & E4). exists i. split; [exact E4|].
    apply filter_In. split; [exact I|].
    rewrite !andb_true_iff, negb_true_iff, Z.eqb_eq, String.eqb_eq. tauto.
Qed.

(** C7: for a data model of an extension type, the listing by data model
    returns exactly the live associations whose parent and child are both in
    the model's set of included entities and whose scope is this model or
    null; it reads the session without changing it. *)
Theorem by_data_model_extension s data_model_id data_model :
  check_datamodel_by_id data_model_id s = (Return data_model, s) ->
  dm_Type data_model = OrgLIF \/ dm_Type data_model = PartnerLIF ->
  exists l,
    get_entity_associations_by_data_model_id data_model_id s = (Return l, s)
    /\ (forall a,
          In a l <->
          In a (associations s)
          /\ Deleted a = false
          /\ (exists p, ParentEntityId a = Some p
                        /\ included s data_model_id p)
          /\ (exists c, ChildEntityId a = Some c
                        /\ included s data_model_id c)
          /\ (ExtendedByDataModelId a = Some data_model_id
              \/ ExtendedByDataModelId a = None))
    /\ (NoDup (associations s) -> NoDup l).
Proof.
  intros C T.
  unfold get_entity_associations_by_data_model_id, bind. rewrite C.
  assert (is_extension_type (dm_Type data_model) = true) as ->
      by (destruct T as [-> | ->]; reflexivity).
  simpl. rewrite map_from_orm. eexists. split; [reflexivity|]. split.
  - intros a. unfold extension_model_clause.
    rewrite filter_In, !andb_true_iff, orb_true_iff, negb_true_iff,
      !col_in_true, col_eq_int_true, is_null_true.
    setoid_rewrite included_entity_ids_In. tauto.
  - intros ND. now apply NoDup_filter.
Qed.

Lemma by_data_model_extension_witness :
  let s := scenario in
  let included_row := created_row (new_association 10 20 "contains" None)
                        entity_10 entity_20 [] in
  let excluded_row := created_row (new_association 10 30 "references" None)
                        entity_10 entity_30 [included_row] in
  check_datamodel_by_id 99 s = (Return model_99, s)
  /\ dm_Type model_99 = OrgLIF
  /\ get_entity_association_by_id 2 s = (Return excluded_row, s)
  /\ exists l,
       get_entity_associations_by_data_model_id 99 s = (Return l, s)
       /\ In included_row l /\ ~ In excluded_row l.
Proof.
  intros s included_row excluded_row.
  assert (check_datamodel_by_id 99 s = (Return model_99, s)) as C
      by reflexivity.
  split; [exact C|]. split; [reflexivity|]. split; [reflexivity|].
  destruct (by_data_model_extension s 99 model_99 C (or_introl eq_refl))
    as (l & L & I & _).
  exists l. split; [exact L|]. split.
  - apply I. split; [vm_compute; auto|]. split; [reflexivity|].
    split; [|split; [|right; reflexivity]].
    + exists 10. split; [reflexivity|].
      exists (mkExtInclusion 99 "Entity" 10 false).
      split; [vm_compute; auto | repeat split].
    + exists 20. split; [reflexivity|].
      exists (mkExtInclusion 99 "Entity" 20 false).
      split; [vm_compute; auto | repeat split].
  - intros X. apply I in X.
    destruct X as (_ & _ & _ & (c & E & i & Ii & _ & _ & _ & Ei) & _).
    vm_compute in E. injection E as <-.
    vm_compute in Ii. destruct Ii as [<-|[<-|[]]]; discriminate Ei.
Defined.

(** ** The primary key is kept *)

Lemma primary_key_create s data row s' :
  primary_key s ->
  create_entity_association data s = (Return row, s') ->
  primary_key s'.
Proof.
  unfold primary_key. intros PK H.
  apply create_entity_association_Return in H.
  destruct H as (p & c & _ & _ & _ & E & ->). simpl.
  rewrite map_app. simpl. apply NoDup_app.
  - exact PK.
  - repeat constructor. simpl. tauto.
  - intros k Ik [<-|[]]. apply in_map_iff in Ik.
    destruct Ik as (b & Eb & Ib). apply fresh_id_above in Ib.
    rewrite E in Eb. simpl in Eb. lia.
Qed.

Lemma primary_key_update s id dto row s' :
  primary_key s ->
  update_entity_association id dto s = (Return row, s') ->
  primary_key s'.
Proof.
  unfold primary_key. intros PK H.
  destruct (update_entity_association_cases id dto s)
    as [N|[N|(old & G & U)]]; try congruence.
  rewrite U in H. injection H as _ <-. simpl.
  now rewrite map_Id_update_row.
Qed.

Lemma primary_key_soft_delete s id m s' :
  primary_key s ->
  soft_delete_entity_association id s = (Return m, s') ->
  primary_key s'.
Proof.
  unfold primary_key. intros PK H.
  apply soft_delete_entity_association_Return in H.
  destruct H as (a & _ & _ & ->). simpl.
  now rewrite map_Id_update_row.
Qed.

(** A hard delete removes the row for good. *)
Lemma delete_entity_association_Return s id m s' :
  primary_key s ->
  delete_entity_association id s = (Return m, s') ->
  session_get s' id = None /\ primary_key s'.
Proof.
  unfold primary_key, delete_entity_association, bind. intros PK H.
  destruct (get_entity_association_by_id_cases s id)
    as [(a & G & S & D)|[G _]]; rewrite G in H; [|discriminate].
  simpl in H. injection H as _ <-.
  destruct (session_get_Some _ _ _ S) as [E _]. rewrite E.
  unfold session_get. simpl. split; [now apply find_delete_row|].
  clear - PK. induction (associations s) as [|b rows IH]; simpl; [constructor|].
  inversion PK as [|k ks NI ND]; subst.
  destruct (Id b =? id); [exact ND|]. simpl. constructor; [|now apply IH].
  intros I. apply NI. clear - I.
  induction rows as [|c rows IH]; simpl in *; [tauto|].
  destruct (Id c =? id); simpl in *; tauto.
Qed.

(** ** Failures write nothing; reads write nothing *)

Lemma create_entity_association_cases data s :
  create_entity_association data s = (Raise NotFound, s)
  \/ create_entity_association data s = (Raise Conflict, s)
  \/ create_entity_association data s = (Raise MultipleResultsFound, s)
  \/ exists parent_entity child_entity,
       let row := created_row data parent_entity child_entity (associations s) in
       create_entity_association data s
       = (Return row, with_associations (associations s ++ [row]) s).
Proof.
  destruct (get_entity_by_id_cases s (c_ParentEntityId data))
    as [(p & HP & _)|HP];
    [|left; apply create_entity_association_unresolved; auto].
  destruct (get_entity_by_id_cases s (c_ChildEntityId data))
    as [(c & HC & _)|HC];
    [|left; apply create_entity_association_unresolved; auto].
  rewrite (create_entity_association_resolved _ _ _ _ HP HC).
  destruct (filter _ (associations s)) as [|a [|b l]]; auto.
  right. right. right. exists p, c. reflexivity.
Qed.

Lemma delete_entity_association_cases id s :
  delete_entity_association id s = (Raise NotFound, s)
  \/ exists a,
       session_get s id = Some a /\ Deleted a = false
       /\ delete_entity_association id s
          = (Return (deleted_successfully id),
             with_associations (delete_row id (associations s)) s).
Proof.
  unfold delete_entity_association, bind.
  destruct (get_entity_association_by_id_cases s id)
    as [(a & G & S & D)|[G _]]; rewrite G; [|now left].
  right. exists a. destruct (session_get_Some _ _ _ S) as [E _].
  simpl. rewrite E. auto.
Qed.

Lemma soft_delete_entity_association_cases id s :
  soft_delete_entity_association id s = (Raise NotFound, s)
  \/ exists a,
       session_get s id = Some a /\ Deleted a = false
       /\ soft_delete_entity_association id s
          = (Return (deleted_successfully id),
             with_associations
               (update_row (with_Deleted a true) (associations s)) s).
Proof.
  unfold soft_delete_entity_association, bind.
  destruct (get_entity_association_by_id_cases s id)
    as [(a & G & S & D)|[G _]]; rewrite G; [now right; exists a | now left].
Qed.

Lemma check_datamodel_by_id_cases id s :
  (exists d, check_datamodel_by_id id s = (Return d, s)
             /\ dm_Id d = id /\ dm_Deleted d = false
             /\ In d (data_models s))
  \/ check_datamodel_by_id id s = (Raise NotFound, s).
Proof.
  unfold check_datamodel_by_id.
  destruct (find _ (data_models s)) as [d|] eqn:F; [|now right].
  destruct (dm_Deleted d) eqn:D; [now right|].
  left. exists d. apply find_some in F. destruct F as [I E].
  apply Z.eqb_eq in E. auto.
Qed.

(** X1: a create, a hard delete or a soft delete that raises [NotFound],
    [Conflict] or [MultipleResultsFound] has written nothing: it hands back
    the session it was given, every table as it was. *)
Theorem failure_writes_nothing s :
  (forall data e s', create_entity_association data s = (Raise e, s') ->
     s' = s)
  /\ (forall id e s', delete_entity_association id s = (Raise e, s') ->
        s' = s)
  /\ (forall id e s', soft_delete_entity_association id s = (Raise e, s') ->
        s' = s).
Proof.
  split; [|split].
  - intros data e s' H.
    destruct (create_entity_association_cases data s)
      as [N|[N|[N|(p & c & N)]]]; congruence.
  - intros id e s' H.
    destruct (delete_entity_association_cases id s) as [N|(a & _ & _ & N)];
      congruence.
  - intros id e s' H.
    destruct (soft_delete_entity_association_cases id s)
      as [N|(a & _ & _ & N)]; congruence.
Qed.

Lemma failure_writes_nothing_witness :
  let s := exec (create_entity_association
                   (new_association 10 20 "contains" None))
             (exec (create_entity_association
                      (new_association 10 20 "contains" (Some 7)))
                empty_session) in
  create_entity_association (new_association 10 20 "again" None) s
  = (Raise Conflict, s)
  /\ create_entity_association (new_association 10 20 "again" (Some 7)) s
     = (Raise MultipleResultsFound, s)
  /\ create_entity_association (new_association 10 40 "again" None) s
     = (Raise NotFound, s)
  /\ soft_delete_entity_association 3 s = (Raise NotFound, s)
  /\ s = s.
Proof.
  intros s.
  assert (create_entity_association (new_association 10 20 "again" None) s
          = (Raise Conflict, s)) as H by reflexivity.
  split; [exact H|]. do 3 (split; [reflexivity|]).
  exact (proj1 (failure_writes_nothing s) _ Conflict s H).
Defined.

(** ** Other rows are left alone *)

Lemma find_update_row_other id a' rows :
  id <> Id a' ->
  find (fun a => Id a =? id) (update_row a' rows)
  = find (fun a => Id a =? id) rows.
Proof.
  intros N. induction rows as [|a rows IH]; simpl; [reflexivity|].
  destruct (Z.eqb_spec (Id a) (Id a')) as [E|N']; simpl.
  - destruct (Z.eqb_spec (Id a') id) as [E'|_]; [congruence|].
    destruct (Z.eqb_spec (Id a) id) as [E'|_]; [congruence|]. reflexivity.
  - now rewrite IH.
Qed.

Lemma find_delete_row_other id id0 rows :
  id <> id0 ->
  find (fun a => Id a =? id) (delete_row id0 rows)
  = find (fun a => Id a =? id) rows.
Proof.
  intros N. induction rows as [|a rows IH]; simpl; [reflexivity|].
  destruct (Z.eqb_spec (Id a) id0) as [E|N']; simpl.
  - destruct (Z.eqb_spec (Id a) id) as [E'|_]; [congruence|]. reflexivity.
  - now rewrite IH.
Qed.

Lemma find_app_other id rows r :
  id <> Id r ->
  find (fun a => Id a =? id) (rows ++ [r])
  = find (fun a => Id a =? id) rows.
Proof.
  intros N. induction rows as [|a rows IH]; simpl.
  - destruct (Z.eqb_spec (Id r) id); [congruence | reflexivity].
  - now rewrite IH.
Qed.

Lemma get_entity_association_by_id_eval id s s' :
  session_get s' id = session_get s id ->
  eval (get_entity_association_by_id id) s'
  = eval (get_entity_association_by_id id) s.
Proof.
  intros E. unfold eval, get_entity_association_by_id. rewrite E.
  destruct (session_get s id) as [a|]; [|reflexivity].
  now destruct (Deleted a).
Qed.

(** X2: a create, an update, a soft delete and a hard delete change what
    [get_entity_association_by_id] answers for the one id they are about
    only: for every other id the answer after the operation is the answer
    before it. *)
Theorem other_ids_untouched s id :
  (forall data row s',
     create_entity_association data s = (Return row, s') -> id <> Id row ->
     eval (get_entity_association_by_id id) s'
     = eval (get_entity_association_by_id id) s)
  /\ (forall id0 dto row s',
        update_entity_association id0 dto s = (Return row, s') -> id <> id0 ->
        eval (get_entity_association_by_id id) s'
        = eval (get_entity_association_by_id id) s)
  /\ (forall id0 m s',
        soft_delete_entity_association id0 s = (Return m, s') -> id <> id0 ->
        eval (get_entity_association_by_id id) s'
        = eval (get_entity_association_by_id id) s)
  /\ (forall id0 m s',
        delete_entity_association id0 s = (Return m, s') -> id <> id0 ->
        eval (get_entity_association_by_id id) s'
        = eval (get_entity_association_by_id id) s).
Proof.
  split; [|split; [|split]].
  - intros data row s' H N. apply get_entity_association_by_id_eval.
    apply create_entity_association_Return in H.
    destruct H as (p & c & _ & _ & _ & _ & ->).
    unfold session_get. simpl. now apply find_app_other.
  - intros id0 dto row s' H N. apply get_entity_association_by_id_eval.
    destruct (update_entity_association_cases id0 dto s)
      as [F|[F|(old & G & U)]]; try congruence.
    rewrite U in H. injection H as _ <-.
    apply get_entity_association_by_id_Return in G. destruct G as [S _].
    destruct (session_get_Some _ _ _ S) as [E _].
    unfold session_get. simpl. apply find_update_row_other. simpl. congruence.
  - intros id0 m s' H N. apply get_entity_association_by_id_eval.
    apply soft_delete_entity_association_Return in H.
    destruct H as (a & S & _ & ->).
    destruct (session_get_Some _ _ _ S) as [E _].
    unfold session_get. simpl. apply find_update_row_other. simpl. congruence.
  - intros id0 m s' H N. apply get_entity_association_by_id_eval.
    destruct (delete_entity_association_cases id0 s) as [F|(a & _ & _ & U)];
      [congruence|].
    rewrite U in H. injection H as _ <-.
    unfold session_get. simpl. now apply find_delete_row_other.
Qed.

Lemma other_ids_untouched_witness :
  let s := two_associations in
  let s' := exec (soft_delete_entity_association 2) s in
  soft_delete_entity_association 2 s = (Return (deleted_successfully 2), s')
  /\ eval (get_entity_association_by_id 1) s'
     = eval (get_entity_association_by_id 1) s.
Proof.
  intros s s'.
  assert (soft_delete_entity_association 2 s
          = (Return (deleted_successfully 2), s')) as H by reflexivity.
  split; [exact H|].
  apply (proj1 (proj2 (proj2 (other_ids_untouched s 1))) 2 _ _ H). lia.
Defined.

(** ** Create, look up, delete *)

Lemma created_row_stored s data row s' :
  create_entity_association data s = (Return row, s') ->
  get_entity_association_by_id (Id row) s' = (Return row, s')
  /\ (forall b, In b (associations s) -> Id b <> Id row)
  /\ ExtendedByDataModelId row = c_ExtendedByDataModelId data.
Proof.
  intros H. apply create_entity_association_Return in H.
  destruct H as (p & c & _ & _ & _ & E & ->).
  assert (forall b, In b (associations s) -> Id b <> Id row) as Fresh.
  { intros b I. rewrite E. simpl. pose proof (fresh_id_above _ _ I). lia. }
  split; [|split; [exact Fresh | now rewrite E]].
  apply get_entity_association_by_id_Return. split; [|now rewrite E].
  unfold session_get. simpl. now apply find_app_fresh.
Qed.

(** X3: the association a create returns can be fetched by its id at once:
    the id is one no row had, the row is live, and it carries the parent,
    child, relationship, scope and descriptive fields of the DTO as they
    were given. *)
Theorem create_then_get s data row s' :
  create_entity_association data s = (Return row, s') ->
  get_entity_association_by_id (Id row) s' = (Return row, s')
  /\ (forall b, In b (associations s) -> Id b <> Id row)
  /\ eval (get_entity_association_by_id (Id row)) s = Raise NotFound
  /\ Deleted row = false
  /\ ParentEntityId row = Some (c_ParentEntityId data)
  /\ ChildEntityId row = Some (c_ChildEntityId data)
  /\ Relationship row = c_Relationship data
  /\ ExtendedByDataModelId row = c_ExtendedByDataModelId data
  /\ Placement row = c_Placement data /\ Notes row = c_Notes data
  /\ CreationDate row = c_CreationDate data
  /\ ActivationDate row = c_ActivationDate data
  /\ DeprecationDate row = c_DeprecationDate data
  /\ Contributor row = c_Contributor data
  /\ ContributorOrganization row = c_ContributorOrganization data.
Proof.
  intros H. apply create_entity_association_Return in H.
  destruct H as (p & c & _ & _ & _ & E & ->).
  assert (forall b, In b (associations s) -> Id b <> Id row) as Fresh.
  { intros b I. rewrite E. simpl. pose proof (fresh_id_above _ _ I). lia. }
  assert (Deleted row = false) as D by now rewrite E.
  split; [|split; [exact Fresh|split]].
  - apply get_entity_association_by_id_Return. split; [|exact D].
    unfold session_get. simpl. now apply find_app_fresh.
  - unfold eval, get_entity_association_by_id.
    destruct (session_get s (Id row)) as [b|] eqn:S; [|reflexivity].
    apply session_get_Some in S. destruct S as [Eb Ib].
    now apply Fresh in Ib.
  - rewrite E. simpl. repeat split.
Qed.

Lemma create_then_get_witness :
  let data := new_association 10 20 "contains" (Some 99) in
  let row := created_row data entity_10 entity_20 [] in
  let s' := with_associations [row] empty_session in
  create_entity_association data empty_session = (Return row, s')
  /\ get_entity_association_by_id 1 s' = (Return row, s').
Proof.
  intros data row s'.
  assert (create_entity_association data empty_session = (Return row, s'))
    as H by reflexivity.
  split; [exact H|].
  exact (proj1 (create_then_get _ _ _ _ H)).
Defined.

Lemma in_delete_row id rows b :
  NoDup (map Id rows) ->
  In b (delete_row id rows) <-> In b rows /\ Id b <> id.
Proof.
  induction rows as [|a rows IH]; simpl; [tauto|].
  intros ND. inversion ND as [|k ks NI ND']; subst.
  destruct (Z.eqb_spec (Id a) id) as [E|N]; simpl.
  - split.
    + intros I. split; [auto|]. intros Eb. apply NI.
      rewrite E, <- Eb. now apply in_map.
    + intros [[<-|I] Nb]; [congruence | exact I].
  - rewrite (IH ND'). split.
    + intros [<-|[I Nb]]; auto.
    + intros [[<-|I] Nb]; auto.
Qed.

Lemma length_delete_row id rows a :
  find (fun b => Id b =? id) rows = Some a ->
  S (List.length (delete_row id rows)) = List.length rows.
Proof.
  induction rows as [|b rows IH]; simpl; [discriminate|].
  destruct (Id b =? id); [reflexivity|]. simpl. intros F. now rewrite IH.
Qed.

(** X4: a successful hard delete removes the row for good: the table has
    one row less, it holds exactly the rows with another id, the deleted id
    is not found any more, and the key stays unique. *)
Theorem hard_delete_removes s id m s' :
  primary_key s ->
  delete_entity_association id s = (Return m, s') ->
  session_get s' id = None
  /\ get_entity_association_by_id id s' = (Raise NotFound, s')
  /\ (forall b, In b (associations s') <-> In b (associations s) /\ Id b <> id)
  /\ S (List.length (associations s')) = List.length (associations s)
  /\ primary_key s'
  /\ entities s' = entities s /\ data_models s' = data_models s
  /\ inclusions s' = inclusions s.
Proof.
  intros PK H.
  destruct (delete_entity_association_Return _ _ _ _ PK H) as [G PK'].
  destruct (delete_entity_association_cases id s) as [F|(a & S & _ & U)];
    [congruence|].
  rewrite U in H. injection H as _ <-.
  split; [exact G|]. split.
  { unfold get_entity_association_by_id. now rewrite G. }
  split; [intros b; now apply in_delete_row|].
  split; [simpl; now apply length_delete_row with (a := a)|].
  split; [exact PK'|]. repeat split.
Qed.

Lemma hard_delete_removes_witness :
  let s := two_associations in
  let s' := exec (delete_entity_association 1) s in
  primary_key s
  /\ delete_entity_association 1 s = (Return (deleted_successfully 1), s')
  /\ get_entity_association_by_id 1 s' = (Raise NotFound, s')
  /\ List.length (associations s') = 1%nat.
Proof.
  intros s s'.
  assert (primary_key s) as PK
      by (repeat constructor; simpl; intuition discriminate).
  assert (delete_entity_association 1 s
          = (Return (deleted_successfully 1), s')) as H by reflexivity.
  split; [exact PK|]. split; [exact H|].
  destruct (hard_delete_removes _ _ _ _ PK H) as (_ & G & _).
  split; [exact G|]. reflexivity.
Defined.

Lemma delete_row_app_fresh id rows r :
  (forall b, In b rows -> Id b <> id) -> Id r = id ->
  delete_row id (rows ++ [r]) = rows.
Proof.
  intros N E. induction rows as [|a rows IH]; simpl.
  - now rewrite (proj2 (Z.eqb_eq _ _) E).
  - destruct (Z.eqb_spec (Id a) id) as [E'|_].
    + exfalso. apply (N a); simpl; auto.
    + f_equal. apply IH. intros b I. apply N. simpl. auto.
Qed.

Lemma with_associations_same s : with_associations (associations s) s = s.
Proof. now destruct s. Qed.

(** X5: a create followed by the hard delete of the association it
    returned succeeds and leaves every table with the rows it had before
    the create: the association table holds the same rows and the other
    tables are untouched. *)
Theorem create_then_delete s data row s' :
  create_entity_association data s = (Return row, s') ->
  exists s'',
    delete_entity_association (Id row) s'
    = (Return (deleted_successfully (Id row)), s'')
    /\ associations s'' = associations s
    /\ entities s'' = entities s
    /\ data_models s'' = data_models s
    /\ inclusions s'' = inclusions s.
Proof.
  intros H. destruct (created_row_stored _ _ _ _ H) as (G & Fresh & _).
  apply create_entity_association_Return in H.
  destruct H as (p & c & _ & _ & _ & _ & ->).
  unfold delete_entity_association, bind. rewrite G. simpl.
  rewrite delete_row_app_fresh by auto.
  eexists. split; [reflexivity|]. repeat split.
Qed.

Lemma create_then_delete_witness :
  let data := new_association 10 30 "references" None in
  let s := exec (create_entity_association
                   (new_association 10 20 "contains" None)) empty_session in
  let row := created_row data entity_10 entity_30 (associations s) in
  let s' := with_associations (associations s ++ [row]) s in
  create_entity_association data s = (Return row, s')
  /\ exists s'',
       delete_entity_association 2 s' = (Return (deleted_successfully 2), s'')
       /\ associations s'' = associations s.
Proof.
  intros data s row s'.
  assert (create_entity_association data s = (Return row, s')) as H
      by reflexivity.
  split; [exact H|].
  destruct (create_then_delete _ _ _ _ H) as (s'' & D & A & _).
  exists s''. split; [exact D | exact A].
Defined.

Lemma update_row_app_fresh a' rows r :
  (forall b, In b rows -> Id b <> Id a') -> Id r = Id a' ->
  update_row a' (rows ++ [r]) = rows ++ [a'].
Proof.
  intros N E. induction rows as [|a rows IH]; simpl.
  - now rewrite (proj2 (Z.eqb_eq _ _) E).
  - destruct (Z.eqb_spec (Id a) (Id a')) as [E'|_].
    + exfalso. apply (N a); simpl; auto.
    + f_equal. apply IH. intros b I. apply N. simpl. auto.
Qed.

Lemma pair_scope_clause_deleted p c scope a :
  Deleted a = true -> pair_scope_clause p c scope a = false.
Proof.
  intros D. unfold pair_scope_clause. rewrite D. simpl.
  now rewrite andb_false_r.
Qed.

(** X6: a soft-deleted association no longer counts as a duplicate.  After
    a create, the soft delete of the created association succeeds, and a
    new create for the same parent, child and scope then succeeds too; it
    gets another id, and the deleted row stays in the table. *)
Theorem soft_delete_then_create s data row s1 :
  create_entity_association data s = (Return row, s1) ->
  exists s2,
    soft_delete_entity_association (Id row) s1
    = (Return (deleted_successfully (Id row)), s2)
    /\ forall data',
         c_ParentEntityId data' = c_ParentEntityId data ->
         c_ChildEntityId data' = c_ChildEntityId data ->
         c_ExtendedByDataModelId data' = c_ExtendedByDataModelId data ->
         exists row' s3,
           create_entity_association data' s2 = (Return row', s3)
           /\ Id row' <> Id row
           /\ session_get s3 (Id row) = Some (with_Deleted row true)
           /\ get_entity_association_by_id (Id row') s3 = (Return row', s3).
Proof.
  intros H. destruct (created_row_stored _ _ _ _ H) as (G & Fresh & _).
  apply create_entity_association_Return in H.
  destruct H as (p & c & HP & HC & F & E & ->).
  unfold soft_delete_entity_association, bind. rewrite G. simpl.
  rewrite update_row_app_fresh by auto.
  eexists. split; [reflexivity|].
  intros data' EP EC ES.
  set (rows' := associations s ++ [with_Deleted row true]).
  change (set_associations rows' _) with (Return tt, with_associations rows' s).
  simpl snd.
  assert (create_entity_association data' (with_associations rows' s)
          = (let r := created_row data' p c rows' in
             (Return r, with_associations (rows' ++ [r]) (with_associations rows' s))))
    as C.
  { rewrite (create_entity_association_resolved data' p c).
    - simpl associations. unfold rows' at 1. rewrite filter_app.
      rewrite EP, EC, ES, F. simpl.
      now rewrite pair_scope_clause_deleted.
    - rewrite EP. now apply resolved_with_associations.
    - rewrite EC. now apply resolved_with_associations. }
  do 2 eexists. split; [exact C|].
  assert (Id row < fresh_id rows') as L.
  { apply (fresh_id_above rows' (with_Deleted row true)).
    unfold rows'. apply in_or_app. right. simpl. auto. }
  split; [simpl; lia|]. split.
  - unfold session_get. simpl. rewrite find_app_other by (simpl; lia).
    unfold rows'. now apply find_app_fresh.
  - exact (proj1 (created_row_stored _ _ _ _ C)).
Qed.

Lemma soft_delete_then_create_witness :
  let data := new_association 10 20 "contains" (Some 99) in
  let row := created_row data entity_10 entity_20 [] in
  let s1 := with_associations [row] empty_session in
  create_entity_association data empty_session = (Return row, s1)
  /\ exists s2,
       soft_delete_entity_association 1 s1
       = (Return (deleted_successfully 1), s2)
       /\ exists row' s3,
            create_entity_association data s2 = (Return row', s3)
            /\ Id row' <> 1.
Proof.
  intros data row s1.
  assert (create_entity_association data empty_session = (Return row, s1))
    as H by reflexivity.
  split; [exact H|].
  destruct (soft_delete_then_create _ _ _ _ H) as (s2 & D & K).
  exists s2. split; [exact D|].
  destruct (K data eq_refl eq_refl eq_refl) as (row' & s3 & C & N & _).
  exists row', s3. split; [exact C | exact N].
Defined.

(** ** Invariants *)

(** X8: a create, a soft delete and a hard delete keep the table free of
    doubles: if no two live rows with different ids have the same parent,
    child and scope, that is still so afterwards. *)
Theorem scoped_unique_kept s :
  primary_key s -> scoped_unique s ->
  (forall data row s',
     create_entity_association data s = (Return row, s') -> scoped_unique s')
  /\ (forall id m s',
        soft_delete_entity_association id s = (Return m, s') ->
        scoped_unique s')
  /\ (forall id m s',
        delete_entity_association id s = (Return m, s') -> scoped_unique s').
Proof.
  intros PK U. split; [|split].
  - intros data row s' H.
    apply create_entity_association_Return in H.
    destruct H as (p & c & _ & _ & F & E & ->).
    rewrite filter_nil_iff in F.
    assert (forall a, In a (associations s) -> Deleted a = false ->
              ParentEntityId a = ParentEntityId row ->
              ChildEntityId a = ChildEntityId row ->
              ExtendedByDataModelId a = ExtendedByDataModelId row -> False)
      as New.
    { intros a I D EP EC ES. specialize (F a I).
      assert (pair_scope_clause (c_ParentEntityId data) (c_ChildEntityId data)
                (c_ExtendedByDataModelId data) a = true) as Q.
      { apply pair_scope_clause_true. rewrite E in EP, EC, ES.
        simpl in EP, EC, ES. auto. }
      congruence. }
    intros a b Ia Ib Da Db EP EC ES. simpl in Ia, Ib.
    apply in_app_or in Ia. apply in_app_or in Ib.
    destruct Ia as [Ia|[<-|[]]], Ib as [Ib|[<-|[]]].
    + now apply U.
    + exfalso. now apply (New a).
    + exfalso. now apply (New b).
    + reflexivity.
  - intros id m s' H.
    apply soft_delete_entity_association_Return in H.
    destruct H as (d & _ & _ & ->).
    intros a b Ia Ib Da Db EP EC ES. simpl in Ia, Ib.
    apply in_update_row in Ia; [|exact PK].
    apply in_update_row in Ib; [|exact PK].
    destruct Ia as [->|[Ia _]]; [discriminate Da|].
    destruct Ib as [->|[Ib _]]; [discriminate Db|].
    now apply U.
  - intros id m s' H.
    destruct (delete_entity_association_cases id s) as [F|(d & _ & _ & E)];
      [congruence|].
    rewrite E in H. injection H as _ <-.
    intros a b Ia Ib Da Db EP EC ES. simpl in Ia, Ib.
    apply in_delete_row in Ia; [|exact PK].
    apply in_delete_row in Ib; [|exact PK].
    apply U; tauto.
Qed.

Lemma scoped_unique_kept_witness :
  let s := exec (create_entity_association
                   (new_association 10 30 "references" None))
             (exec (create_entity_association
                      (new_association 10 20 "contains" (Some 9)))
                empty_session) in
  let data := new_association 10 20 "contains" (Some 5) in
  let row := created_row data entity_10 entity_20 (associations s) in
  let s' := with_associations (associations s ++ [row]) s in
  List.length (associations s) = 2%nat
  /\ primary_key s /\ scoped_unique s
  /\ create_entity_association data s = (Return row, s')
  /\ scoped_unique s'.
Proof.
  intros s data row s'.
  assert (primary_key s) as PK
      by (repeat constructor; simpl; intuition discriminate).
  assert (scoped_unique s) as U.
  { intros a b Ia Ib _ _ _ EC _. vm_compute in Ia, Ib.
    destruct Ia as [<-|[<-|[]]], Ib as [<-|[<-|[]]];
      reflexivity || discriminate EC. }
  assert (create_entity_association data s = (Return row, s')) as H
      by reflexivity.
  split; [reflexivity|]. split; [exact PK|]. split; [exact U|].
  split; [exact H|].
  exact (proj1 (scoped_unique_kept _ PK U) data row s' H).
Defined.

(** ** The rows that stand in the way of a create *)

(** X9: [retrieve_all_entity_associations] returns the rows a create for
    the same parent, child and scope would stumble on.  With both entities
    resolved, the create stores a row exactly when the retrieval raises
    [NotFound]; when the retrieval returns, its list is not empty, holds
    exactly the live rows of the pair whose scope is null or the given one,
    and the create raises [Conflict] for one row and
    [MultipleResultsFound] for more. *)
Theorem retrieve_all_is_the_duplicate_check s data parent_entity child_entity :
  get_entity_by_id (c_ParentEntityId data) s = (Return parent_entity, s) ->
  get_entity_by_id (c_ChildEntityId data) s = (Return child_entity, s) ->
  let retrieve :=
    retrieve_all_entity_associations (c_ParentEntityId data)
      (c_ChildEntityId data) (c_ExtendedByDataModelId data) s in
  ((exists row s', create_entity_association data s = (Return row, s'))
   <-> retrieve = (Raise NotFound, s))
  /\ (forall l, retrieve = (Return l, s) ->
        l <> []
        /\ (forall a,
              In a l <->
              In a (associations s)
              /\ ParentEntityId a = Some (c_ParentEntityId data)
              /\ ChildEntityId a = Some (c_ChildEntityId data)
              /\ Deleted a = false
              /\ (ExtendedByDataModelId a = None
                  \/ ExtendedByDataModelId a = c_ExtendedByDataModelId data))
        /\ (List.length l = 1%nat ->
            create_entity_association data s = (Raise Conflict, s))
        /\ ((2 <= List.length l)%nat ->
            create_entity_association data s = (Raise MultipleResultsFound, s))).
Proof.
  intros HP HC retrieve. subst retrieve.
  rewrite (create_entity_association_resolved _ _ _ _ HP HC).
  unfold retrieve_all_entity_associations, bind, gets. simpl.
  pose proof (fun a =>
    filter_In (pair_scope_clause (c_ParentEntityId data) (c_ChildEntityId data)
                 (c_ExtendedByDataModelId data)) a (associations s)) as FI.
  destruct (filter _ (associations s)) as [|a [|b l]] eqn:F.
  - split.
    + split; [reflexivity | eauto].
    + intros l H. discriminate.
  - split.
    + split; [intros (r & s' & H); discriminate | discriminate].
    + unfold ret. intros l H. injection H as <-.
      split; [discriminate|]. split.
      * intros x. rewrite FI, pair_scope_clause_true. tauto.
      * simpl. split; [reflexivity | lia].
  - split.
    + split; [intros (r & s' & H); discriminate | discriminate].
    + unfold ret. intros l' H. injection H as <-.
      split; [discriminate|]. split.
      * intros x. rewrite FI, pair_scope_clause_true. tauto.
      * simpl. split; [lia | reflexivity].
Qed.

Lemma retrieve_all_is_the_duplicate_check_witness :
  let s := two_associations in
  let data := new_association 10 20 "again" (Some 99) in
  get_entity_by_id 10 s = (Return entity_10, s)
  /\ get_entity_by_id 20 s = (Return entity_20, s)
  /\ retrieve_all_entity_associations 10 20 (Some 99) s
     = (Return [created_row (new_association 10 20 "rel" None)
                  entity_10 entity_20 []], s)
  /\ create_entity_association data s = (Raise Conflict, s).
Proof.
  intros s data.
  assert (get_entity_by_id (c_ParentEntityId data) s = (Return entity_10, s))
    as HP by reflexivity.
  assert (get_entity_by_id (c_ChildEntityId data) s = (Return entity_20, s))
    as HC by reflexivity.
  split; [exact HP|]. split; [exact HC|].
  assert (retrieve_all_entity_associations (c_ParentEntityId data)
            (c_ChildEntityId data) (c_ExtendedByDataModelId data) s
          = (Return [created_row (new_association 10 20 "rel" None)
                       entity_10 entity_20 []], s)) as R by reflexivity.
  split; [exact R|].
  destruct (proj2 (retrieve_all_is_the_duplicate_check _ _ _ _ HP HC) _ R)
    as (_ & _ & C & _).
  apply C. reflexivity.
Defined.

(** ** Listing by parent entity *)

Lemma by_parent_entity_id_rows s parent e including :
  check_entity_by_id parent s = (Return e, s) ->
  get_entity_associations_by_parent_entity_id parent including s
  = (Return (parent_rows parent including (associations s)), s).
Proof.
  intros C.
  unfold get_entity_associations_by_parent_entity_id, bind. rewrite C.
  simpl. now rewrite map_from_orm.
Qed.

Lemma parent_rows_In parent including rows a :
  In a (parent_rows parent including rows) <->
  In a rows
  /\ ParentEntityId a = Some parent /\ Deleted a = false
  /\ (ExtendedByDataModelId a = None
      \/ (truthy_int including = true
          /\ ExtendedByDataModelId a = including)).
Proof.
  unfold parent_rows. destruct (truthy_int including) eqn:T;
    rewrite filter_In, !andb_true_iff, ?orb_true_iff, negb_true_iff,
      !col_eq_int_true, is_null_true; intuition congruence.
Qed.

(** X10: for a parent entity that is found, the listing by parent returns
    exactly the live associations of that parent whose scope is null, and,
    when a non-zero scope is asked for, also those of that scope; the base
    listing is part of every scoped listing; a scope of 0 is read as no
    scope.  For a parent that is not found the listing raises [NotFound]. *)
Theorem by_parent_entity_listing s parent including :
  (forall e, check_entity_by_id parent s = (Return e, s) ->
     exists l,
       get_entity_associations_by_parent_entity_id parent including s
       = (Return l, s)
       /\ (forall a,
             In a l <->
             In a (associations s)
             /\ ParentEntityId a = Some parent /\ Deleted a = false
             /\ (ExtendedByDataModelId a = None
                 \/ (truthy_int including = true
                     /\ ExtendedByDataModelId a = including)))
       /\ (forall base,
             get_entity_associations_by_parent_entity_id parent None s
             = (Return base, s) ->
             forall a, In a base -> In a l)
       /\ (including = Some 0 ->
           get_entity_associations_by_parent_entity_id parent None s
           = (Return l, s)))
  /\ (check_entity_by_id parent s = (Raise NotFound, s) ->
      get_entity_associations_by_parent_entity_id parent including s
      = (Raise NotFound, s)).
Proof.
  split.
  - intros e C.
    exists (parent_rows parent including (associations s)).
    split; [now apply by_parent_entity_id_rows with (e := e)|].
    split; [intros a; apply parent_rows_In|]. split.
    + intros base B a I.
      rewrite (by_parent_entity_id_rows s parent e None C) in B.
      injection B as <-. apply parent_rows_In in I. apply parent_rows_In.
      destruct I as (I & P & D & [N|[T _]]); [tauto | discriminate T].
    + intros ->. rewrite (by_parent_entity_id_rows s parent e None C).
      reflexivity.
  - intros C.
    unfold get_entity_associations_by_parent_entity_id, bind. now rewrite C.
Qed.

Lemma by_parent_entity_listing_witness :
  let s := exec (create_entity_association
                   (new_association 10 30 "references" (Some 99)))
             (exec (create_entity_association
                      (new_association 10 20 "contains" None)) empty_session) in
  check_entity_by_id 10 s = (Return entity_10, s)
  /\ exists l,
       get_entity_associations_by_parent_entity_id 10 (Some 99) s
       = (Return l, s)
       /\ List.length l = 2%nat
       /\ forall a, In a l -> ParentEntityId a = Some 10.
Proof.
  intros s.
  assert (check_entity_by_id 10 s = (Return entity_10, s)) as C by reflexivity.
  split; [exact C|].
  destruct (proj1 (by_parent_entity_listing s 10 (Some 99)) _ C)
    as (l & L & K & _).
  exists l. split; [exact L|]. split.
  - vm_compute in L. injection L as <-. reflexivity.
  - intros a I. apply K in I. tauto.
Defined.

(** X11: an association that was just created shows in the listing of its
    parent exactly when its scope is null, or the listing asks for its
    scope and that scope is not 0. *)
Theorem create_then_list s data row s' including :
  create_entity_association data s = (Return row, s') ->
  exists l,
    get_entity_associations_by_parent_entity_id (c_ParentEntityId data)
      including s' = (Return l, s')
    /\ (In row l <->
        c_ExtendedByDataModelId data = None
        \/ (truthy_int including = true
            /\ c_ExtendedByDataModelId data = including)).
Proof.
  intros H.
  destruct (created_row_stored _ _ _ _ H) as (G & _ & ES).
  apply get_entity_association_by_id_Return in G. destruct G as [S D].
  apply session_get_Some in S. destruct S as [_ I].
  apply create_entity_association_Return in H.
  destruct H as (p & c & HP & _ & _ & E & ->).
  assert (check_entity_by_id (c_ParentEntityId data)
            (with_associations (associations s ++ [row]) s)
          = (Return p, with_associations (associations s ++ [row]) s)) as C
      by now apply resolved_with_associations.
  eexists. split; [apply (by_parent_entity_id_rows _ _ p including C)|].
  rewrite parent_rows_In, ES.
  assert (ParentEntityId row = Some (c_ParentEntityId data)) as EP
      by now rewrite E.
  tauto.
Qed.

Lemma create_then_list_witness :
  let data := new_association 10 20 "contains" (Some 99) in
  let row := created_row data entity_10 entity_20 [] in
  let s' := with_associations [row] empty_session in
  create_entity_association data empty_session = (Return row, s')
  /\ get_entity_associations_by_parent_entity_id 10 (Some 99) s'
     = (Return [row], s')
  /\ In row [row].
Proof.
  intros data row s'.
  assert (create_entity_association data empty_session = (Return row, s'))
    as H by reflexivity.
  split; [exact H|]. split; [reflexivity|].
  destruct (create_then_list _ _ _ _ (Some 99) H) as (l & L & K).
  assert (l = [row]) as <- by (vm_compute in L; now injection L as <-).
  apply K. right. split; reflexivity.
Defined.

(** ** Listing by a data model that is no extension *)

Lemma joined_with_model_In key data_model_id es rows a :
  In a (joined_with_model key data_model_id es rows)
  <-> In a rows /\ Deleted a = false /\ ExtendedByDataModelId a = None
      /\ exists e, In e es /\ entity_DataModelId e = data_model_id
                   /\ key a = Some (entity_Id e).
Proof.
  unfold joined_with_model. rewrite in_flat_map. split.
  - intros (x & Ix & I). apply in_map_iff in I. destruct I as (e & <- & I).
    apply filter_In in I. destruct I as [Ie Q].
    rewrite !andb_true_iff, negb_true_iff, col_eq_int_true, is_null_true,
      Z.eqb_eq in Q.
    split; [exact Ix|]. repeat split; try tauto. exists e. tauto.
  - intros (I & D & N & e & Ie & Em & Ek). exists a. split; [exact I|].
    apply in_map_iff. exists e. split; [reflexivity|].
    apply filter_In. split; [exact Ie|].
    rewrite !andb_true_iff, negb_true_iff, col_eq_int_true, is_null_true,
      Z.eqb_eq. tauto.
Qed.

(** X12: for a data model that is found and is neither [OrgLIF] nor
    [PartnerLIF], the listing by data model returns, each once, the live
    base-scope associations whose parent or child is an entity of that data
    model; the entity may itself be deleted, the join does not look at its
    flag.  For a data model that is not found it raises [NotFound]. *)
Theorem by_data_model_base s data_model_id :
  (forall data_model,
     check_datamodel_by_id data_model_id s = (Return data_model, s) ->
     dm_Type data_model <> OrgLIF -> dm_Type data_model <> PartnerLIF ->
     exists l,
       get_entity_associations_by_data_model_id data_model_id s = (Return l, s)
       /\ NoDup l
       /\ forall a,
            In a l <->
            In a (associations s)
            /\ Deleted a = false /\ ExtendedByDataModelId a = None
            /\ exists e, In e (entities s)
                         /\ entity_DataModelId e = data_model_id
                         /\ (ParentEntityId a = Some (entity_Id e)
                             \/ ChildEntityId a = Some (entity_Id e)))
  /\ (check_datamodel_by_id data_model_id s = (Raise NotFound, s) ->
      get_entity_associations_by_data_model_id data_model_id s
      = (Raise NotFound, s)).
Proof.
  split.
  - intros data_model C NO NP.
    unfold get_entity_associations_by_data_model_id, bind. rewrite C.
    assert (is_extension_type (dm_Type data_model) = false) as ->
        by (destruct (dm_Type data_model) eqn:T; try reflexivity; congruence).
    simpl. rewrite map_from_orm. eexists. split; [reflexivity|].
    split; [apply NoDup_nodup|].
    intros a. unfold union.
    rewrite nodup_In, in_app_iff, !joined_with_model_In. split.
    + intros [(I & D & N & e & Ie & Em & Ek)|(I & D & N & e & Ie & Em & Ek)];
        (split; [exact I|]); repeat split; try assumption; exists e; auto.
    + intros (I & D & N & e & Ie & Em & [Ek|Ek]); [left|right];
        (split; [exact I|]); repeat split; try assumption; exists e; auto.
  - intros C.
    unfold get_entity_associations_by_data_model_id, bind. now rewrite C.
Qed.

Lemma by_data_model_base_witness :
  let s := scenario in
  check_datamodel_by_id 1 s = (Return model_1, s)
  /\ exists l,
       get_entity_associations_by_data_model_id 1 s = (Return l, s)
       /\ NoDup l /\ List.length l = 2%nat.
Proof.
  intros s.
  assert (check_datamodel_by_id 1 s = (Return model_1, s)) as C
      by reflexivity.
  split; [exact C|].
  destruct (proj1 (by_data_model_base s 1) model_1 C) as (l & L & ND & _);
    try discriminate.
  exists l. split; [exact L|]. split; [exact ND|].
  vm_compute in L. injection L as <-. reflexivity.
Defined.

(** ** Resolving an entity by name *)

Lemma scalar_one_or_none_map_Some {A} (f : A -> Z) rows v :
  scalar_one_or_none (map f rows) = Return (Some v) ->
  exists a, rows = [a] /\ f a = v.
Proof.
  destruct rows as [|a [|b l]]; simpl; try discriminate.
  intros H. injection H as <-. eauto.
Qed.

Lemma filter_two {A} (f : A -> bool) l a b :
  In a l -> In b l -> a <> b -> f a = true -> f b = true ->
  exists x y r, filter f l = x :: y :: r.
Proof.
  induction l as [|c l IH]; simpl; [tauto|].
  intros Ia Ib N Fa Fb.
  assert (forall x, In x l -> f x = true -> exists y r, filter f l = y :: r)
    as One.
  { intros x Ix Fx. assert (In x (filter f l)) as I by now apply filter_In.
    destruct (filter f l); [destruct I | eauto]. }
  destruct Ia as [->|Ia], Ib as [->|Ib].
  - congruence.
  - rewrite Fa. destruct (One b Ib Fb) as (y & r & ->). eauto.
  - rewrite Fb. destruct (One a Ia Fa) as (y & r & ->). eauto.
  - destruct (IH Ia Ib N Fa Fb) as (x & y & r & E). rewrite E.
    destruct (f c); eauto.
Qed.

(** X13: when [resolve_entity_id] returns an id, that id is not 0 and is
    the id of the one live entity with the given name in the one live data
    model with the given name (and version, when a non-empty version is
    given), whose id is not 0; the session is not changed. *)
Theorem resolve_entity_id_sound dm_Name dm_DataModelVersion entity_Name
    entity_name data_model_name data_model_version s id s' :
  resolve_entity_id dm_Name dm_DataModelVersion entity_Name
    entity_name data_model_name data_model_version s = (Return id, s') ->
  s' = s /\ id <> 0
  /\ exists d e,
       In d (data_models s) /\ dm_Name d = data_model_name
       /\ dm_Deleted d = false /\ dm_Id d <> 0
       /\ (truthy_str data_model_version = true ->
           dm_DataModelVersion d = data_model_version)
       /\ (forall d', In d' (data_models s) ->
              dm_Name d' = data_model_name -> dm_Deleted d' = false ->
              (truthy_str data_model_version = true ->
               dm_DataModelVersion d' = data_model_version) ->
              d' = d)
       /\ In e (entities s) /\ entity_Name e = entity_name
       /\ entity_DataModelId e = dm_Id d /\ entity_Deleted e = false
       /\ entity_Id e = id
       /\ (forall e', In e' (entities s) ->
              entity_Name e' = entity_name ->
              entity_DataModelId e' = dm_Id d -> entity_Deleted e' = false ->
              e' = e).
Proof.
  unfold resolve_entity_id.
  destruct (scalar_one_or_none (map dm_Id _)) as [[m|]|x] eqn:QD;
    try discriminate.
  destruct (Z.eqb_spec m 0) as [|M0]; [discriminate|].
  destruct (scalar_one_or_none (map entity_Id _)) as [[n|]|x] eqn:QE;
    try discriminate.
  destruct (Z.eqb_spec n 0) as [|N0]; [discriminate|].
  intros H. injection H as <- <-.
  apply scalar_one_or_none_map_Some in QD. destruct QD as (d & FD & <-).
  apply scalar_one_or_none_map_Some in QE. destruct QE as (e & FE & <-).
  assert (forall d', In d' (filter (data_model_clause dm_Name
                       dm_DataModelVersion data_model_name data_model_version)
                       (data_models s)) <->
                     In d' (data_models s) /\ dm_Name d' = data_model_name
                     /\ dm_Deleted d' = false
                     /\ (truthy_str data_model_version = true ->
                         dm_DataModelVersion d' = data_model_version)) as KD.
  { intros d'. rewrite filter_In. unfold data_model_clause.
    destruct (truthy_str data_model_version);
      rewrite !andb_true_iff, negb_true_iff, String.eqb_eq,
        ?col_eq_str_true; intuition congruence. }
  assert (forall e', In e' (filter (entity_clause entity_Name entity_name
                       (dm_Id d)) (entities s)) <->
                     In e' (entities s) /\ entity_Name e' = entity_name
                     /\ entity_DataModelId e' = dm_Id d
                     /\ entity_Deleted e' = false) as KE.
  { intros e'. rewrite filter_In. unfold entity_clause.
    rewrite !andb_true_iff, negb_true_iff, String.eqb_eq, Z.eqb_eq. tauto. }
  rewrite FD in KD. rewrite FE in KE.
  split; [reflexivity|]. split; [exact N0|].
  exists d, e.
  destruct (proj1 (KD d) (or_introl eq_refl)) as (Id_ & Nd & Dd & Vd).
  destruct (proj1 (KE e) (or_introl eq_refl)) as (Ie & Ne & Me & De).
  repeat split; try assumption.
  - intros d' I' N' D' V'.
    destruct (proj2 (KD d') (conj I' (conj N' (conj D' V')))) as [<-|[]].
    reflexivity.
  - intros e' I' N' M' D'.
    destruct (proj2 (KE e') (conj I' (conj N' (conj M' D')))) as [<-|[]].
    reflexivity.
Qed.

Lemma resolve_entity_id_sound_witness :
  resolve_entity_id example_dm_Name example_dm_DataModelVersion
    example_entity_Name "Course" "Org" (Some "2.0") empty_session
  = (Return 20, empty_session)
  /\ 20 <> 0.
Proof.
  assert (resolve_entity_id example_dm_Name example_dm_DataModelVersion
            example_entity_Name "Course" "Org" (Some "2.0") empty_session
          = (Return 20, empty_session)) as H by reflexivity.
  split; [exact H|].
  exact (proj1 (proj2 (resolve_entity_id_sound _ _ _ _ _ _ _ _ _ H))).
Defined.

(** X14: a data model name that two different live data models carry
    cannot be resolved without a version: [resolve_entity_id] raises
    [MultipleResultsFound], not [NotFound]; and it raises [NotFound] when
    the one data model it finds has the id 0. *)
Theorem resolve_entity_id_ambiguous dm_Name dm_DataModelVersion entity_Name
    entity_name data_model_name s :
  (forall d1 d2,
     In d1 (data_models s) -> In d2 (data_models s) -> d1 <> d2 ->
     dm_Name d1 = data_model_name -> dm_Name d2 = data_model_name ->
     dm_Deleted d1 = false -> dm_Deleted d2 = false ->
     forall version, truthy_str version = false ->
       resolve_entity_id dm_Name dm_DataModelVersion entity_Name
         entity_name data_model_name version s
       = (Raise MultipleResultsFound, s))
  /\ (forall d version,
        filter (data_model_clause dm_Name dm_DataModelVersion
                  data_model_name version) (data_models s) = [d] ->
        dm_Id d = 0 ->
        resolve_entity_id dm_Name dm_DataModelVersion entity_Name
          entity_name data_model_name version s
        = (Raise NotFound, s)).
Proof.
  split.
  - intros d1 d2 I1 I2 N N1 N2 D1 D2 version T.
    unfold resolve_entity_id.
    destruct (filter_two (data_model_clause dm_Name dm_DataModelVersion
                            data_model_name version)
                (data_models s) d1 d2 I1 I2 N) as (x & y & r & ->).
    + unfold data_model_clause. rewrite T, N1, D1, String.eqb_refl.
      reflexivity.
    + unfold data_model_clause. rewrite T, N2, D2, String.eqb_refl.
      reflexivity.
    + reflexivity.
  - intros d version F Z0. unfold resolve_entity_id. rewrite F. simpl.
    now rewrite Z0.
Qed.

Lemma resolve_entity_id_ambiguous_witness :
  resolve_entity_id example_dm_Name example_dm_DataModelVersion
    example_entity_Name "Course" "Org" None two_versions
  = (Raise MultipleResultsFound, two_versions).
Proof.
  apply (proj1 (resolve_entity_id_ambiguous example_dm_Name
                  example_dm_DataModelVersion example_entity_Name
                  "Course" "Org" two_versions)
           (mkDataModel 99 OrgLIF false) (mkDataModel 100 OrgLIF false));
    try reflexivity.
  - simpl. auto.
  - simpl. auto.
  - discriminate.
Defined.

(** ** The unicode repair script *)

Example REPLACEMENTS_items :
  REPLACEMENTS =
  [ ([226; 8364; 34], [45]); ([226; 8364; 8482], [39]);
    ([226; 8364; 732], [39]); ([226; 8364; 339], [34]);
    ([226; 8364], [34]); ([226; 8364; 175], [32]);
    ([226; 8364; 162], [45]);
    ([226; 8364; 353; 195; 8222; 195; 180], [39]) ].
Proof. reflexivity. Qed.

Example fix_file_example :
  fix_file [104; 226; 8364; 8482; 105; 226; 8364; 175; 33]
  = ([104; 39; 105; 34; 175; 33], 2).
Proof. reflexivity. Qed.

Lemma startswith_length p s :
  startswith p s = true -> (List.length p <= List.length s)%nat.
Proof.
  revert s. induction p as [|x p IH]; intros [|y s]; simpl;
    try discriminate; try lia.
  rewrite andb_true_iff. intros [_ H]. apply IH in H. lia.
Qed.

Lemma startswith_app p q s :
  startswith (p ++ q) s = true -> startswith p s = true.
Proof.
  revert s. induction p as [|x p IH]; intros [|y s]; simpl;
    try discriminate; try reflexivity.
  rewrite !andb_true_iff. intros [E H]. split; [exact E | now apply IH].
Qed.

Lemma occurs_app p q s : occurs (p ++ q) s = true -> occurs p s = true.
Proof.
  induction s as [|c s IH]; simpl.
  - apply startswith_app.
  - rewrite !orb_true_iff. intros [H|H].
    + left. now apply (startswith_app p q (c :: s)).
    + right. now apply IH.
Qed.

Lemma count_from_nonneg old k s : 0 <= count_from old k s.
Proof.
  revert k. induction s as [|c s IH]; intros k; cbn [count_from]; [lia|].
  destruct k as [|k]; [|apply IH].
  destruct (startswith old (c :: s)).
  - specialize (IH (List.length old - 1)%nat). lia.
  - apply IH.
Qed.

(** A pattern that is not empty is counted exactly when it occurs. *)
Lemma count_from_zero old s :
  old <> [] -> (count_from old 0 s = 0 <-> occurs old s = false).
Proof.
  intros N. induction s as [|c s IH]; cbn [count_from occurs].
  - destruct old; [congruence|]. simpl. tauto.
  - destruct (startswith old (c :: s)) eqn:P; cbn [orb].
    + pose proof (count_from_nonneg old (List.length old - 1) s).
      split; [intros; exfalso; lia | discriminate].
    + exact IH.
Qed.

Lemma occurs_new_app old new rest :
  old <> [] -> (forall c, In c new -> ~ In c old) ->
  occurs old (new ++ rest) = occurs old rest.
Proof.
  intros N D. induction new as [|c new IH]; [reflexivity|].
  simpl app. simpl occurs.
  rewrite IH by (intros x I; apply D; simpl; auto).
  destruct old as [|o old]; [congruence|]. simpl.
  destruct (Z.eqb_spec o c) as [->|_]; [|reflexivity].
  exfalso. apply (D c); simpl; auto.
Qed.

(** What a pattern free of the first new character finds at the start of
    the replaced text, it finds at the start of the text. *)
Lemma startswith_replace_from old r new q s :
  ~ In r q ->
  startswith q (replace_from old (r :: new) 0 s) = true ->
  startswith q s = true.
Proof.
  revert q. induction s as [|c s IH]; intros q NI; simpl; [tauto|].
  destruct (startswith old (c :: s)).
  - destruct q as [|a q]; [reflexivity|]. simpl.
    destruct (Z.eqb_spec a r) as [->|_]; [|discriminate].
    exfalso. apply NI. simpl. auto.
  - destruct q as [|a q]; [reflexivity|]. simpl.
    rewrite !andb_true_iff. intros [E H]. split; [exact E|].
    apply IH; [|exact H]. intros I. apply NI. simpl. auto.
Qed.

(** After [replace] the pattern is gone, when the text put in is not empty
    and shares no character with the pattern. *)
Lemma replace_from_clean old r new k s :
  old <> [] -> (forall c, In c (r :: new) -> ~ In c old) ->
  occurs old (replace_from old (r :: new) k s) = false.
Proof.
  intros N D. revert k. induction s as [|c s IH]; intros k.
  - simpl. destruct old; [congruence | reflexivity].
  - cbn [replace_from]. destruct k as [|k]; [|apply IH].
    destruct (startswith old (c :: s)) eqn:P.
    + rewrite occurs_new_app by assumption. apply IH.
    + cbn [occurs]. rewrite IH, orb_false_r.
      destruct old as [|o old]; [congruence|].
      destruct (startswith (o :: old) (c :: replace_from _ _ 0 s)) eqn:Q;
        [|reflexivity].
      simpl in Q, P. apply andb_true_iff in Q. destruct Q as [E Q].
      apply startswith_replace_from in Q.
      * rewrite E, Q in P. discriminate.
      * intros I. apply (D r); simpl; auto.
Qed.

(** The length of the replaced text. *)
Lemma replace_from_length old new k s :
  old <> [] ->
  Z.of_nat (List.length (replace_from old new k s))
  + count_from old k s * Z.of_nat (List.length old)
  + Z.of_nat (Nat.min k (List.length s))
  = Z.of_nat (List.length s)
    + count_from old k s * Z.of_nat (List.length new).
Proof.
  intros N.
  assert (1 <= List.length old)%nat as L1
      by (destruct old; [congruence | simpl; lia]).
  revert k. induction s as [|c s IH]; intros k;
    cbn [replace_from count_from List.length]; [lia|].
  destruct k as [|k].
  - destruct (startswith old (c :: s)) eqn:P.
    + apply startswith_length in P. cbn [List.length] in P.
      specialize (IH (List.length old - 1)%nat).
      rewrite length_app. lia.
    + specialize (IH 0%nat). cbn [List.length]. lia.
  - specialize (IH k). lia.
Qed.

(** Every key of the table starts with the two characters of
    [corrupted_prefix], has at least two characters, and is replaced by one
    character. *)
Lemma REPLACEMENTS_keys :
  Forall (fun item => (exists rest, fst item = corrupted_prefix ++ rest)
                      /\ (2 <= List.length (fst item))%nat
                      /\ List.length (snd item) = 1%nat) REPLACEMENTS.
Proof.
  rewrite REPLACEMENTS_items. unfold corrupted_prefix.
  repeat constructor; simpl; try lia; eexists; reflexivity.
Qed.

Lemma str_count_nonneg old s : 0 <= str_count old s.
Proof.
  unfold str_count. destruct old; [lia | apply count_from_nonneg].
Qed.

Lemma str_count_zero old s :
  old <> [] -> (str_count old s = 0 <-> occurs old s = false).
Proof.
  intros N. unfold str_count. destruct old; [congruence|].
  now apply count_from_zero.
Qed.

(** The count only grows, and a turn that leaves it leaves the text. *)
Lemma fix_step_total state item :
  snd state <= snd (fix_step state item)
  /\ (snd (fix_step state item) = snd state -> fix_step state item = state).
Proof.
  destruct state as [content total], item as [corrupted replacement].
  unfold fix_step. pose proof (str_count_nonneg corrupted content).
  destruct (Z.ltb_spec 0 (str_count corrupted content)); simpl;
    split; try lia; reflexivity || (intros; exfalso; lia).
Qed.

Lemma fix_fold_total table state :
  snd state <= snd (fold_left fix_step table state)
  /\ (snd (fold_left fix_step table state) = snd state ->
      fold_left fix_step table state = state).
Proof.
  revert state. induction table as [|item table IH]; intros state; simpl.
  - split; [lia | reflexivity].
  - destruct (IH (fix_step state item)) as [L E].
    destruct (fix_step_total state item) as [L' E'].
    split; [lia|]. intros T.
    assert (snd (fix_step state item) = snd state) as T' by lia.
    rewrite E by lia. now apply E'.
Qed.

(** A text without the two characters is left alone by every key. *)
Lemma fix_step_clean state item rest :
  fst item = corrupted_prefix ++ rest ->
  occurs corrupted_prefix (fst state) = false ->
  fix_step state item = state.
Proof.
  destruct state as [content total], item as [corrupted replacement].
  cbn [fst]. intros -> C. unfold fix_step.
  assert (str_count (corrupted_prefix ++ rest) content = 0) as ->.
  { apply str_count_zero; [discriminate|].
    destruct (occurs (corrupted_prefix ++ rest) content) eqn:Occ;
      [|reflexivity].
    apply occurs_app in Occ. congruence. }
  reflexivity.
Qed.

Lemma fix_fold_clean table state :
  Forall (fun item => exists rest, fst item = corrupted_prefix ++ rest) table ->
  occurs corrupted_prefix (fst state) = false ->
  fold_left fix_step table state = state.
Proof.
  induction 1 as [|item table [rest E] _ IH]; intros C; simpl;
    [reflexivity|].
  rewrite (fix_step_clean state item rest E C). now apply IH.
Qed.

Lemma REPLACEMENTS_prefixed :
  Forall (fun item => exists rest, fst item = corrupted_prefix ++ rest)
    REPLACEMENTS.
Proof.
  eapply Forall_impl; [|apply REPLACEMENTS_keys]. intros item H. apply H.
Qed.

(** Each turn shortens the text by at least the number it counts. *)
Lemma fix_step_length state item :
  (2 <= List.length (fst item))%nat -> List.length (snd item) = 1%nat ->
  Z.of_nat (List.length (fst (fix_step state item)))
  + (snd (fix_step state item) - snd state)
  <= Z.of_nat (List.length (fst state)).
Proof.
  destruct state as [content total], item as [corrupted replacement].
  simpl. intros L2 L1. unfold fix_step.
  destruct (Z.ltb_spec 0 (str_count corrupted content)) as [P|_]; simpl;
    [|lia].
  unfold str_count, str_replace in *.
  destruct corrupted as [|x corrupted]; [simpl in L2; lia|].
  pose proof (replace_from_length (x :: corrupted) replacement 0 content)
    as E.
  rewrite L1 in E. simpl Nat.min in E.
  specialize (E ltac:(discriminate)). nia.
Qed.

Lemma fix_fold_length table state :
  Forall (fun item => (2 <= List.length (fst item))%nat
                      /\ List.length (snd item) = 1%nat) table ->
  Z.of_nat (List.length (fst (fold_left fix_step table state)))
  + (snd (fold_left fix_step table state) - snd state)
  <= Z.of_nat (List.length (fst state)).
Proof.
  intros F. revert state.
  induction F as [|item table [L2 L1] _ IH]; intros state; simpl; [lia|].
  specialize (IH (fix_step state item)).
  pose proof (fix_step_length state item L2 L1). lia.
Qed.

(** [fix_file] is the loop: when nothing was counted the text the loop
    holds is the text of the file. *)
Lemma fix_file_fold original :
  fix_file original = fold_left fix_step REPLACEMENTS (original, 0).
Proof.
  unfold fix_file.
  destruct (fix_fold_total REPLACEMENTS (original, 0)) as [L E].
  destruct (fold_left fix_step REPLACEMENTS (original, 0))
    as [content total] eqn:F.
  simpl in L, E.
  destruct (Z.ltb_spec 0 total) as [_|Z0]; [reflexivity|].
  assert (total = 0) as -> by lia. now rewrite E.
Qed.

(** The loop after the sixth entry, the key of two characters. *)
Lemma fix_file_first_five original :
  fix_file original
  = fold_left fix_step (firstn 5 REPLACEMENTS) (original, 0)
  /\ occurs corrupted_prefix (fst (fix_file original)) = false.
Proof.
  rewrite fix_file_fold.
  assert (REPLACEMENTS
          = firstn 4 REPLACEMENTS ++ [(corrupted_prefix, [34])]
            ++ skipn 5 REPLACEMENTS) as Split by reflexivity.
  assert (firstn 5 REPLACEMENTS
          = firstn 4 REPLACEMENTS ++ [(corrupted_prefix, [34])]) as Five
      by reflexivity.
  rewrite Five. rewrite Split at 1 3. rewrite !fold_left_app.
  set (st4 := fold_left fix_step (firstn 4 REPLACEMENTS) (original, 0)).
  assert (occurs corrupted_prefix
            (fst (fold_left fix_step [(corrupted_prefix, [34])] st4)) = false)
    as C.
  { destruct st4 as [content total]. simpl. 
    destruct (Z.ltb_spec 0 (count_from corrupted_prefix 0 content)) as [P|Z0];
      simpl.
    - apply replace_from_clean; [discriminate|].
      intros c [<-|[]] [E|[E|[]]]; discriminate.
    - apply count_from_zero; [discriminate|].
      pose proof (count_from_nonneg corrupted_prefix 0 content). lia. }
  rewrite (fix_fold_clean (skipn 5 REPLACEMENTS)).
  - split; [reflexivity | exact C].
  - pose proof REPLACEMENTS_prefixed as F.
    rewrite <- (firstn_skipn 5 REPLACEMENTS) in F.
    apply Forall_app in F. apply F.
  - exact C.
Qed.

Lemma fix_file_key_count original item :
  In item REPLACEMENTS ->
  occurs (fst item) (fst (fix_file original)) = false
  /\ str_count (fst item) (fst (fix_file original)) = 0.
Proof.
  intros I. destruct (fix_file_first_five original) as [_ C].
  pose proof REPLACEMENTS_prefixed as F. rewrite Forall_forall in F.
  destruct (F item I) as [rest E]. destruct item as [key value].
  cbn [fst] in *. subst key.
  assert (occurs (corrupted_prefix ++ rest) (fst (fix_file original)) = false)
    as Occ.
  { destruct (occurs (corrupted_prefix ++ rest) (fst (fix_file original)))
      eqn:Occ; [|reflexivity].
    apply occurs_app in Occ. congruence. }
  split; [exact Occ|]. apply str_count_zero; [discriminate | exact Occ].
Qed.

Lemma fix_file_count original :
  0 <= snd (fix_file original)
  /\ (snd (fix_file original) = 0 -> fst (fix_file original) = original).
Proof.
  pose proof (fix_fold_total REPLACEMENTS (original, 0)) as [L E].
  rewrite fix_file_fold. cbn [fst snd] in L, E.
  split; [exact L|]. intros Z0. now rewrite (E Z0).
Qed.

(** X15: the text [fix_file] leaves holds none of the corrupted sequences
    of the table, nor the two characters they all start with. *)
Theorem fix_file_clean original :
  occurs corrupted_prefix (fst (fix_file original)) = false
  /\ forall item, In item REPLACEMENTS ->
       occurs (fst item) (fst (fix_file original)) = false
       /\ str_count (fst item) (fst (fix_file original)) = 0.
Proof.
  split.
  - apply fix_file_first_five.
  - intros item I. now apply fix_file_key_count.
Qed.

(** X16: [fix_file] is idempotent: run on the text it left, it counts 0
    fixes and leaves the text as it is. *)
Theorem fix_file_idempotent original :
  fix_file (fst (fix_file original)) = (fst (fix_file original), 0).
Proof.
  rewrite (fix_file_fold (fst (fix_file original))).
  apply fix_fold_clean; [apply REPLACEMENTS_prefixed|].
  apply fix_file_first_five.
Qed.

(** X17: [fix_file] counts 0 fixes exactly when the text does not hold the
    two characters [corrupted_prefix], and exactly when it leaves the text
    as it is; the count is never negative. *)
Theorem fix_file_zero original :
  0 <= snd (fix_file original)
  /\ (snd (fix_file original) = 0
      <-> occurs corrupted_prefix original = false)
  /\ (snd (fix_file original) = 0 <-> fst (fix_file original) = original).
Proof.
  pose proof (fix_fold_total REPLACEMENTS (original, 0)) as [L E].
  pose proof (fix_fold_length REPLACEMENTS (original, 0)) as Len.
  pose proof (fix_file_first_five original) as [_ C].
  rewrite fix_file_fold in *.
  set (r := fold_left fix_step REPLACEMENTS (original, 0)) in *.
  cbn [fst snd] in L, E, Len.
  split; [exact L|]. split; split.
  - intros Z0. rewrite (E Z0) in C. exact C.
  - intros Occ. unfold r.
    now rewrite fix_fold_clean by (apply REPLACEMENTS_prefixed || exact Occ).
  - intros Z0. now rewrite (E Z0).
  - intros Same. rewrite Same in Len.
    assert (Forall (fun item => (2 <= List.length (fst item))%nat
                                /\ List.length (snd item) = 1%nat)
              REPLACEMENTS) as F
        by (eapply Forall_impl; [|apply REPLACEMENTS_keys];
            intros item H; apply H).
    specialize (Len F). lia.
Qed.

(** X18: the three last entries of the table never apply.  Their keys
    start with the two characters the entry before them replaces, so when
    their turn comes they count 0: [fix_file] does what the loop over the
    first five entries does, and a corrupted narrow no-break space becomes
    a double quote followed by the stray character, not a space. *)
Theorem fix_file_dead_entries original :
  fix_file original
  = fold_left fix_step (firstn 5 REPLACEMENTS) (original, 0)
  /\ (forall item, In item (skipn 5 REPLACEMENTS) ->
        str_count (fst item)
          (fst (fold_left fix_step (firstn 5 REPLACEMENTS) (original, 0))) = 0)
  /\ fix_file [226; 8364; 175] = ([34; 175], 1).
Proof.
  destruct (fix_file_first_five original) as [E _].
  split; [exact E|]. split; [|reflexivity].
  intros item I. rewrite <- E. apply fix_file_key_count.
  rewrite <- (firstn_skipn 5 REPLACEMENTS). apply in_or_app. now right.
Qed.

(** X19: every fix removes at least one character: the text [fix_file]
    leaves is shorter than the text it was given by at least the count it
    returns. *)
Theorem fix_file_shortens original :
  Z.of_nat (List.length (fst (fix_file original))) + snd (fix_file original)
  <= Z.of_nat (List.length original).
Proof.
  rewrite fix_file_fold.
  pose proof (fix_fold_length REPLACEMENTS (original, 0)) as Len.
  cbn [fst snd] in Len. rewrite Z.sub_0_r in Len. apply Len.
  eapply Forall_impl; [|apply REPLACEMENTS_keys]. intros item H. apply H.
Qed.

(** ** The whole directory *)

Lemma main_fold sample_data files total_files_fixed total_replacements :
  fold_left main_step sample_data
    (files, total_files_fixed, total_replacements)
  = (files ++ fixed_files sample_data,
     total_files_fixed + files_with_fixes sample_data,
     total_replacements + all_fixes sample_data).
Proof.
  revert files total_files_fixed total_replacements.
  induction sample_data as [|[name text] rest IH]; intros files nf nr.
  - unfold files_with_fixes, all_fixes. simpl.
    now rewrite app_nil_r, !Z.add_0_r.
  - cbn [fold_left main_step].
    unfold files_with_fixes, all_fixes, fixed_files in *.
    cbn [map filter fold_right fst snd].
    pose proof (fix_file_count text) as (P & _).
    destruct (fix_file text) as [text' fixes] eqn:F. cbn [fst snd] in *.
    destruct (Z.ltb_spec 0 fixes); rewrite IH, <- app_assoc;
      cbn [List.length app].
    + replace (nf + 1 + Z.of_nat (List.length
                 (filter (fun json_file => 0 <? snd (fix_file (snd json_file)))
                    rest)))
        with (nf + Z.of_nat (S (List.length
                 (filter (fun json_file => 0 <? snd (fix_file (snd json_file)))
                    rest)))) by lia.
      now rewrite Z.add_assoc.
    + assert (fixes = 0) as -> by lia. reflexivity.
Qed.

Lemma all_fixes_bounds sample_data :
  0 <= files_with_fixes sample_data <= all_fixes sample_data
  /\ files_with_fixes sample_data <= Z.of_nat (List.length sample_data)
  /\ (all_fixes sample_data = 0 -> fixed_files sample_data = sample_data).
Proof.
  unfold files_with_fixes, all_fixes, fixed_files.
  induction sample_data as [|[name text] rest IH];
    cbn [map filter fold_right fst snd List.length]; [repeat split; lia|].
  destruct (fix_file_count text) as (P & Z0).
  destruct IH as (B & L & E).
  destruct (Z.ltb_spec 0 (snd (fix_file text))); cbn [List.length].
  - repeat split; try lia.
  - repeat split; try lia. intros T.
    rewrite Z0 by lia. now rewrite E by lia.
Qed.

(** X20: [main] keeps the names and the order of the files, leaves in each
    the text [fix_file] leaves, reports at most one fixed file per file and
    at least one replacement per fixed file, changes no file when it
    reports 0 replacements, and run again on the files it left reports 0
    replacements in 0 files and changes nothing. *)
Theorem main_idempotent sample_data :
  let '(files, total_files_fixed, total_replacements) := main sample_data in
  map fst files = map fst sample_data
  /\ map snd files = map (fun text => fst (fix_file text)) (map snd sample_data)
  /\ 0 <= total_files_fixed <= Z.of_nat (List.length sample_data)
  /\ total_files_fixed <= total_replacements
  /\ (total_replacements = 0 -> files = sample_data)
  /\ main files = (files, 0, 0).
Proof.
  unfold main. rewrite main_fold. cbn [app]. rewrite !Z.add_0_l.
  destruct (all_fixes_bounds sample_data) as (B & L & E).
  split; [|split; [|split; [|split; [|split]]]]; try lia; try exact E.
  - unfold fixed_files. rewrite map_map. reflexivity.
  - unfold fixed_files. rewrite !map_map. reflexivity.
  - rewrite main_fold. cbn [app]. rewrite !Z.add_0_l.
    assert (forall l, fixed_files (fixed_files l) = fixed_files l
                      /\ files_with_fixes (fixed_files l) = 0
                      /\ all_fixes (fixed_files l) = 0) as K.
    { unfold fixed_files, files_with_fixes, all_fixes.
      induction l as [|[name text] rest IH];
        cbn [map filter fold_right fst snd List.length];
        [repeat split; reflexivity|].
      assert (fix_file (fst (fix_file text)) = (fst (fix_file text), 0))
        as -> by (rewrite (fix_file_fold (fst (fix_file text)));
                  apply fix_fold_clean;
                  [apply REPLACEMENTS_prefixed | apply fix_file_first_five]).
      cbn [fst snd].
      destruct IH as (I1 & I2 & I3). rewrite I1, I3.
      change (0 <? 0) with false. cbv iota. rewrite I2.
      repeat split; reflexivity. }
    destruct (K sample_data) as (-> & -> & ->). reflexivity.
Qed.

Lemma fix_file_clean_witness :
  let original := [104; 226; 8364; 8482; 105; 226; 8364; 175; 33] in
  let item := ([226; 8364; 8482], [39]) in
  In item REPLACEMENTS
  /\ fix_file original = ([104; 39; 105; 34; 175; 33], 2)
  /\ occurs (fst item) (fst (fix_file original)) = false.
Proof.
  intros original item.
  assert (In item REPLACEMENTS) as I by (right; left; reflexivity).
  split; [exact I|]. split; [reflexivity|].
  exact (proj1 (proj2 (fix_file_clean original) item I)).
Defined.

Lemma fix_file_zero_witness :
  let original := [123; 34; 110; 34; 58; 226; 49; 125] in
  occurs corrupted_prefix original = false
  /\ snd (fix_file original) = 0.
Proof.
  intros original.
  assert (occurs corrupted_prefix original = false) as Occ by reflexivity.
  split; [exact Occ|].
  exact (proj2 (proj1 (proj2 (fix_file_zero original))) Occ).
Defined.

Lemma fix_file_dead_entries_witness :
  let original := [226; 8364; 162; 32; 226; 8364; 175] in
  let item := ([226; 8364; 162], [45]) in
  In item (skipn 5 REPLACEMENTS)
  /\ str_count (fst item) original = 1
  /\ str_count (fst item)
       (fst (fold_left fix_step (firstn 5 REPLACEMENTS) (original, 0))) = 0
  /\ fix_file original = ([34; 162; 32; 34; 175], 2).
Proof.
  intros original item.
  assert (In item (skipn 5 REPLACEMENTS)) as I by (right; left; reflexivity).
  split; [exact I|]. split; [reflexivity|].
  split; [|reflexivity].
  exact (proj1 (proj2 (fix_file_dead_entries original)) item I).
Defined.

Lemma main_idempotent_witness :
  let sample_data :=
    [("a.json", [123; 226; 8364; 8482; 125]); ("b.json", [123; 125])] in
  let files := [("a.json", [123; 39; 125]); ("b.json", [123; 125])] in
  main sample_data = (files, 1, 1)
  /\ main files = (files, 0, 0).
Proof.
  intros sample_data files.
  assert (main sample_data = (files, 1, 1)) as E by reflexivity.
  split; [exact E|].
  pose proof (main_idempotent sample_data) as H.
  rewrite E in H. apply H.
Defined.
